(** * dnd_builder: the character-build rules engine, embedded in Rocq

    A shallow embedding of the rules core of the D&D character builder
    (characters.py, utils/, forms/, data/): the currency helpers, the
    armor-class calculator, the dice roll, the class / skills / spells steps
    and the equipment step with its form.

    Conventions
    - Python [int] is [Z]; [//] and [%] with a positive divisor are
      [Z.div] and [Z.modulo] (both floor).
    - A Python dict with string keys is a [gmap string _]; [d.get(k, v)] is
      [default v (d !! k)], [d[k]] is the lookup itself, [None] being the
      [KeyError].
    - The Flask session is a dict too, a [gmap string value];
      [session.pop(k, None)] is [delete k], [session[k] = v] is
      [<[k := v]>].
    - A route takes the session and the request and returns
      [option (session * response)]; [None] is an uncaught Python exception.
      What Flask-WTF validates by itself (CSRF token, declared validators
      and choices) is library code: its verdict is a field of the request.
    - Gold amounts in the equipment form are Python floats; they are kept
      behind the interface [PyFloat], so that what is proved about the
      equipment step does not depend on how floats round.
    - characters.py imports [EquipmentForm] from forms.equipment_form; the
      class embedded here is the one of forms/equipment_form_clean.py (the
      backup copy has the same [validate]). *)

From stdpp Require Import gmap strings list fin_maps.
From Stdlib Require Import ZArith QArith Qround Ascii.

Local Open Scope string_scope.
Local Open Scope Z_scope.
Local Open Scope list_scope.

(* ===================================================================== *)
(** * Part I: definitions *)
(* ===================================================================== *)

(** ** Python string operations used by the routes *)

Module PyStr.

(** [s.startswith(p)] *)
Fixpoint startswith (s p : string) : bool :=
  match p, s with
  | EmptyString, _ => true
  | String a p', String b s' => if Ascii.eqb a b then startswith s' p' else false
  | String _ _, EmptyString => false
  end.

(** [p in s]: [p] occurs in [s] as a substring. *)
Fixpoint contains (p s : string) : bool :=
  startswith s p ||
  match s with
  | EmptyString => false
  | String _ s' => contains p s'
  end.

(** [s.split(sep)] for a non-empty separator.  [skip] counts the
    characters of a separator just matched that are still to be dropped;
    [cur] is the piece being read, reversed. *)
Fixpoint split_go (sep : string) (skip : nat) (cur : string) (s : string) : list string :=
  match s with
  | EmptyString => [String.rev cur]
  | String c s' =>
      match skip with
      | S k => split_go sep k cur s'
      | O =>
          if startswith s sep
          then String.rev cur :: split_go sep (String.length sep - 1) EmptyString s'
          else split_go sep O (String c cur) s'
      end
  end.

Definition split (s sep : string) : list string := split_go sep O EmptyString s.

(** [a, b = s.split(':')]: exactly two pieces, a [ValueError] otherwise. *)
Definition split_pair (s : string) : option (string * string) :=
  match split s ":" with
  | [a; b] => Some (a, b)
  | _ => None
  end.





(** Truth value of a string: non-empty. *)
Definition truthy (s : string) : bool :=
  match s with EmptyString => false | _ => true end.

End PyStr.

(** ** Currency: characters.py and utils/currency_utils.py *)

Module Currency.

(** characters.py: [COIN_VALUES = {"pp": 500, "gp": 100, "sp": 10, "cp": 1}] *)
Definition COIN_VALUES : gmap string Z :=
  {[ "pp" := 500; "gp" := 100; "sp" := 10; "cp" := 1 ]}.

(** One summand of [coins_to_cp]: [COIN_VALUES[d] * count] added to the
    running sum; an unknown denomination is a [KeyError]. *)
Definition add_coin (d : string) (count : Z) (acc : option Z) : option Z :=
  t ← acc; v ← COIN_VALUES !! d; Some (t + v * count).

(** [sum(COIN_VALUES[d] * count for d, count in coins.items())] *)
Definition coins_to_cp (coins : gmap string Z) : option Z :=
  map_fold add_coin (Some 0) coins.

(** One iteration of the loop of [cp_to_coins]:
    [result[denom], rem = divmod(rem, COIN_VALUES[denom])]. *)
Definition cp_to_coins_step (acc : option (gmap string Z * Z)) (denom : string)
  : option (gmap string Z * Z) :=
  '(result, rem) ← acc;
  v ← COIN_VALUES !! denom;
  Some (<[denom := rem `div` v]> result, rem `mod` v).

Definition cp_to_coins (cp_total : Z) : option (gmap string Z) :=
  fst <$> foldl cp_to_coins_step (Some (∅, cp_total)) ["pp"; "gp"; "sp"; "cp"].

(** utils/currency_utils.py: [convert_to_coins]; [int(total_cp)] is the
    identity on an [int]. *)
Definition convert_to_coins (total_cp : Z) : gmap string Z :=
  let pp := total_cp `div` 1000 in
  let remainder := total_cp `mod` 1000 in
  let gp := remainder `div` 100 in
  let remainder := remainder `mod` 100 in
  let sp := remainder `div` 10 in
  let cp := remainder `mod` 10 in
  <["cp" := cp]> (<["sp" := sp]> (<["gp" := gp]> (<["pp" := pp]>
    ({[ "pp" := 0; "gp" := 0; "sp" := 0; "cp" := 0 ]})))).

(** [cost_dict.get(k, 0)] *)
Definition get0 (cost_dict : gmap string Z) (k : string) : Z :=
  default 0 (cost_dict !! k).

(** utils/currency_utils.py: [get_cost_in_cp] *)
Definition get_cost_in_cp (cost_dict : gmap string Z) : Z :=
  let total := 0 in
  let total := total + get0 cost_dict "pp" * 1000 in
  let total := total + get0 cost_dict "gp" * 100 in
  let total := total + get0 cost_dict "sp" * 10 in
  let total := total + get0 cost_dict "cp" in
  total.

(** The four-key breakdown [{"pp": p, "gp": g, "sp": s, "cp": c}]. *)
Definition coins (p g s c : Z) : gmap string Z :=
  {[ "pp" := p; "gp" := g; "sp" := s; "cp" := c ]}.

End Currency.

(** ** Python floats

    The equipment form computes in gold pieces with Python floats.  The
    operations it uses are collected in an interface; the development is
    parametric in it. *)

Class PyFloat (F : Type) := {
  f_of_int : Z → F;            (* int to float, as in [0.0 + n] or [float(str(n))] *)
  f_add : F → F → F;
  f_sub : F → F → F;
  f_mul : F → F → F;
  f_div : F → F → F;           (* [/] *)
  f_floordiv : F → F → F;      (* [//] *)
  f_mod : F → F → F;           (* [%] *)
  f_int : F → Z;               (* [int(x)]: truncation towards zero *)
  f_gt : F → F → bool;         (* [>] *)
  f_ge : F → F → bool;         (* [>=] *)
}.

(** Exact arithmetic on reduced fractions.  It agrees with IEEE doubles
    wherever every intermediate value is an integer of small magnitude,
    which is the case for whole-gold prices. *)
Module ExactFloat.

Definition q_int (x : Q) : Z :=
  if Qle_bool 0 x then Qfloor x else Qceiling x.

Definition q_floordiv (x y : Q) : Q := inject_Z (Qfloor (x / y)).

#[export] Instance Q_float : PyFloat Q := {|
  f_of_int := inject_Z;
  f_add x y := Qred (x + y);
  f_sub x y := Qred (x - y);
  f_mul x y := Qred (x * y);
  f_div x y := Qred (x / y);
  f_floordiv := q_floordiv;
  f_mod x y := Qred (x - y * q_floordiv x y);
  f_int := q_int;
  f_gt x y := negb (Qle_bool x y);
  f_ge x y := Qle_bool y x;
|}.

End ExactFloat.

Section GoldConversion.
Context {F : Type} `{PyFloat F}.

(** utils/currency_utils.py: [convert_gp_to_coins] *)
Definition convert_gp_to_coins (total_gp : F) : gmap string Z :=
  let pp := f_int (f_floordiv total_gp (f_of_int 10)) in
  let remainder_gp := f_mod total_gp (f_of_int 10) in
  let gp := f_int remainder_gp in
  let fractional_gp := f_sub remainder_gp (f_of_int gp) in
  let total_sp := f_mul fractional_gp (f_of_int 10) in
  let sp := f_int total_sp in
  let fractional_sp := f_sub total_sp (f_of_int sp) in
  let cp := f_int (f_mul fractional_sp (f_of_int 10)) in
  Currency.coins pp gp sp cp.

(** forms/equipment_form_clean.py: [EquipmentForm._convert_to_gp] *)
Definition _convert_to_gp (cost : gmap string Z) : F :=
  let total := f_of_int 0 in
  let total := f_add total (f_of_int (Currency.get0 cost "pp" * 10)) in
  let total := f_add total (f_of_int (Currency.get0 cost "gp")) in
  let total := f_add total (f_div (f_of_int (Currency.get0 cost "sp")) (f_of_int 10)) in
  let total := f_add total (f_div (f_of_int (Currency.get0 cost "cp")) (f_of_int 100)) in
  total.

End GoldConversion.

(** ** Static rule tables: data/ and the constants of characters.py *)

Module Data.

(** An armor entry of [ARMOR], with the keys the code reads. *)
Record armor_item := {
  a_name : string;                 (* 'name' *)
  a_type : string;                 (* 'type' *)
  a_cost : gmap string Z;          (* 'cost' *)
  ac : Z;
  add_dex : bool;
  max_dex : option Z;              (* [None] is Python's None *)
  stealth_disadvantage : bool;
}.

(** The shield entry of [ARMOR]. *)
Record shield_item := {
  s_name : string;
  s_cost : gmap string Z;
  ac_bonus : Z;
}.

(** The lists of [ARMOR] hold both kinds of entry; reading ['ac'] from a
    shield entry, or ['ac_bonus'] from an armor entry, is a [KeyError]. *)
Inductive armor_row :=
| ArmorRow (a : armor_item)
| ShieldRow (s : shield_item).

Definition row_name (r : armor_row) : string :=
  match r with ArmorRow a => a_name a | ShieldRow s => s_name s end.

Definition row_cost (r : armor_row) : gmap string Z :=
  match r with ArmorRow a => a_cost a | ShieldRow s => s_cost s end.

Record weapon_row := {
  w_name : string;
  w_cost : gmap string Z;
  damage : string;
  damage_type : string;
  properties : list string;
}.

Record gear_item := {
  g_name : string;
  g_cost : gmap string Z;
}.

Inductive spell_entry :=
| Spell2 (key label : string)
| Spell3 (key label : string) (requires_concentration : bool).

(** data/equipment/armor.py: [ARMOR] *)
Definition ARMOR : gmap string (list armor_row) :=
  list_to_map [
    ("light",
      [ ArmorRow {| a_name := "Padded"; a_type := "light"; a_cost := {[ "gp" := 5 ]}; ac := 11;
                  add_dex := true; max_dex := None; stealth_disadvantage := true |};
        ArmorRow {| a_name := "Leather"; a_type := "light"; a_cost := {[ "gp" := 10 ]}; ac := 11;
                  add_dex := true; max_dex := None; stealth_disadvantage := false |};
        ArmorRow {| a_name := "Studded Leather"; a_type := "light"; a_cost := {[ "gp" := 45 ]}; ac := 12;
                  add_dex := true; max_dex := None; stealth_disadvantage := false |} ]);
    ("medium",
      [ ArmorRow {| a_name := "Hide"; a_type := "medium"; a_cost := {[ "gp" := 10 ]}; ac := 12;
                  add_dex := true; max_dex := Some 2; stealth_disadvantage := false |};
        ArmorRow {| a_name := "Chain Shirt"; a_type := "medium"; a_cost := {[ "gp" := 50 ]}; ac := 13;
                  add_dex := true; max_dex := Some 2; stealth_disadvantage := false |};
        ArmorRow {| a_name := "Scale Mail"; a_type := "medium"; a_cost := {[ "gp" := 50 ]}; ac := 14;
                  add_dex := true; max_dex := Some 2; stealth_disadvantage := true |};
        ArmorRow {| a_name := "Breastplate"; a_type := "medium"; a_cost := {[ "gp" := 400 ]}; ac := 14;
                  add_dex := true; max_dex := Some 2; stealth_disadvantage := false |};
        ArmorRow {| a_name := "Half Plate"; a_type := "medium"; a_cost := {[ "gp" := 750 ]}; ac := 15;
                  add_dex := true; max_dex := Some 2; stealth_disadvantage := true |} ]);
    ("heavy",
      [ ArmorRow {| a_name := "Ring Mail"; a_type := "heavy"; a_cost := {[ "gp" := 30 ]}; ac := 14;
                  add_dex := false; max_dex := Some 0; stealth_disadvantage := true |};
        ArmorRow {| a_name := "Chain Mail"; a_type := "heavy"; a_cost := {[ "gp" := 75 ]}; ac := 16;
                  add_dex := false; max_dex := Some 0; stealth_disadvantage := true |};
        ArmorRow {| a_name := "Splint"; a_type := "heavy"; a_cost := {[ "gp" := 200 ]}; ac := 17;
                  add_dex := false; max_dex := Some 0; stealth_disadvantage := true |};
        ArmorRow {| a_name := "Plate"; a_type := "heavy"; a_cost := {[ "gp" := 1500 ]}; ac := 18;
                  add_dex := false; max_dex := Some 0; stealth_disadvantage := true |} ]);
    ("shield",
      [ ShieldRow {| s_name := "Shield"; s_cost := {[ "gp" := 10 ]}; ac_bonus := 2 |} ]) ].

(** data/equipment/weapons.py: [WEAPONS] *)
Definition WEAPONS : gmap string (list weapon_row) :=
  list_to_map [
    ("simple_melee",
      [ {| w_name := "Sickle"; w_cost := {[ "gp" := 1 ]}; damage := "1d4";
          damage_type := "slashing"; properties := ["light"] |};
        {| w_name := "Club"; w_cost := {[ "sp" := 1 ]}; damage := "1d4";
          damage_type := "bludgeoning"; properties := ["light"] |};
        {| w_name := "Dagger"; w_cost := {[ "gp" := 2 ]}; damage := "1d4";
          damage_type := "piercing"; properties := ["finesse"; "light"; "thrown"] |};
        {| w_name := "Greatclub"; w_cost := {[ "sp" := 2 ]}; damage := "1d8";
          damage_type := "bludgeoning"; properties := ["two-handed"] |};
        {| w_name := "Handaxe"; w_cost := {[ "gp" := 5 ]}; damage := "1d6";
          damage_type := "slashing"; properties := ["light"; "thrown"] |};
        {| w_name := "Light Hammer"; w_cost := {[ "gp" := 2 ]}; damage := "1d4";
          damage_type := "bludgeoning"; properties := ["light"; "thrown"] |};
        {| w_name := "Mace"; w_cost := {[ "gp" := 5 ]}; damage := "1d6";
          damage_type := "bludgeoning"; properties := [] |};
        {| w_name := "Quarterstaff"; w_cost := {[ "sp" := 2 ]}; damage := "1d6";
          damage_type := "bludgeoning"; properties := ["versatile"] |};
        {| w_name := "Spear"; w_cost := {[ "gp" := 1 ]}; damage := "1d6";
          damage_type := "piercing"; properties := ["thrown"; "versatile"] |} ]);
    ("simple_ranged",
      [ {| w_name := "Light Crossbow"; w_cost := {[ "gp" := 25 ]}; damage := "1d8";
          damage_type := "piercing"; properties := ["ammunition"; "loading"; "two-handed"] |};
        {| w_name := "Dart"; w_cost := {[ "cp" := 5 ]}; damage := "1d4";
          damage_type := "piercing"; properties := ["finesse"; "thrown"] |};
        {| w_name := "Shortbow"; w_cost := {[ "gp" := 25 ]}; damage := "1d6";
          damage_type := "piercing"; properties := ["ammunition"; "two-handed"] |};
        {| w_name := "Sling"; w_cost := {[ "sp" := 1 ]}; damage := "1d4";
          damage_type := "bludgeoning"; properties := ["ammunition"] |} ]);
    ("martial_melee",
      [ {| w_name := "Flail"; w_cost := {[ "gp" := 10 ]}; damage := "1d8";
          damage_type := "bludgeoning"; properties := [] |};
        {| w_name := "Glaive"; w_cost := {[ "gp" := 20 ]}; damage := "1d10";
          damage_type := "slashing"; properties := ["heavy"; "reach"; "two-handed"] |};
        {| w_name := "Greataxe"; w_cost := {[ "gp" := 30 ]}; damage := "1d12";
          damage_type := "slashing"; properties := ["heavy"; "two-handed"] |};
        {| w_name := "Greatsword"; w_cost := {[ "gp" := 50 ]}; damage := "2d6";
          damage_type := "slashing"; properties := ["heavy"; "two-handed"] |};
        {| w_name := "Halberd"; w_cost := {[ "gp" := 20 ]}; damage := "1d10";
          damage_type := "slashing"; properties := ["heavy"; "reach"; "two-handed"] |};
        {| w_name := "Lance"; w_cost := {[ "gp" := 10 ]}; damage := "1d12";
          damage_type := "piercing"; properties := ["reach"; "special"] |};
        {| w_name := "Maul"; w_cost := {[ "gp" := 10 ]}; damage := "2d6";
          damage_type := "bludgeoning"; properties := ["heavy"; "two-handed"] |};
        {| w_name := "Morningstar"; w_cost := {[ "gp" := 15 ]}; damage := "1d8";
          damage_type := "piercing"; properties := [] |};
        {| w_name := "Pike"; w_cost := {[ "gp" := 5 ]}; damage := "1d10";
          damage_type := "piercing"; properties := ["heavy"; "reach"; "two-handed"] |};
        {| w_name := "Scimitar"; w_cost := {[ "gp" := 25 ]}; damage := "1d6";
          damage_type := "slashing"; properties := ["finesse"; "light"] |};
        {| w_name := "Trident"; w_cost := {[ "gp" := 5 ]}; damage := "1d8";
          damage_type := "piercing"; properties := ["thrown"; "versatile"] |};
        {| w_name := "Warhammer"; w_cost := {[ "gp" := 15 ]}; damage := "1d8";
          damage_type := "bludgeoning"; properties := ["versatile"] |};
        {| w_name := "War Pick"; w_cost := {[ "gp" := 5 ]}; damage := "1d8";
          damage_type := "piercing"; properties := ["versatile"] |};
        {| w_name := "Whip"; w_cost := {[ "gp" := 2 ]}; damage := "1d4";
          damage_type := "slashing"; properties := ["finesse"; "reach"] |};
        {| w_name := "Battleaxe"; w_cost := {[ "gp" := 10 ]}; damage := "1d8";
          damage_type := "slashing"; properties := ["versatile"] |};
        {| w_name := "Longsword"; w_cost := {[ "gp" := 15 ]}; damage := "1d8";
          damage_type := "slashing"; properties := ["versatile"] |};
        {| w_name := "Rapier"; w_cost := {[ "gp" := 25 ]}; damage := "1d8";
          damage_type := "piercing"; properties := ["finesse"] |};
        {| w_name := "Shortsword"; w_cost := {[ "gp" := 10 ]}; damage := "1d6";
          damage_type := "piercing"; properties := ["finesse"; "light"] |} ]);
    ("martial_ranged",
      [ {| w_name := "Blowgun"; w_cost := {[ "gp" := 10 ]}; damage := "1";
          damage_type := "piercing"; properties := ["ammunition"; "loading"] |};
        {| w_name := "Hand Crossbow"; w_cost := {[ "gp" := 75 ]}; damage := "1d6";
          damage_type := "piercing"; properties := ["ammunition"; "light"; "loading"] |};
        {| w_name := "Heavy Crossbow"; w_cost := {[ "gp" := 50 ]}; damage := "1d10";
          damage_type := "piercing"; properties := ["ammunition"; "heavy"; "loading"; "two-handed"] |};
        {| w_name := "Longbow"; w_cost := {[ "gp" := 50 ]}; damage := "1d8";
          damage_type := "piercing"; properties := ["ammunition"; "heavy"; "two-handed"] |} ]) ].

(** data/equipment/adventuring_gear.py *)
Definition AMMUNITION_OPTIONS : gmap string gear_item :=
  list_to_map [
    ("arrows", {| g_name := "Arrows (20)"; g_cost := {[ "gp" := 1 ]} |});
    ("bolts", {| g_name := "Crossbow Bolts (20)"; g_cost := {[ "gp" := 1 ]} |});
    ("needles", {| g_name := "Blowgun Needles (50)"; g_cost := {[ "gp" := 1 ]} |}) ].

Definition ARCANE_FOCUS_OPTIONS : gmap string gear_item :=
  list_to_map [
    ("crystal", {| g_name := "Crystal"; g_cost := {[ "gp" := 10 ]} |});
    ("orb", {| g_name := "Orb"; g_cost := {[ "gp" := 20 ]} |});
    ("rod", {| g_name := "Rod"; g_cost := {[ "gp" := 10 ]} |});
    ("staff", {| g_name := "Staff"; g_cost := {[ "gp" := 5 ]} |});
    ("wand", {| g_name := "Wand"; g_cost := {[ "gp" := 10 ]} |}) ].

Definition HOLY_SYMBOL_OPTIONS : gmap string gear_item :=
  list_to_map [
    ("amulet", {| g_name := "Amulet"; g_cost := {[ "gp" := 5 ]} |});
    ("emblem", {| g_name := "Emblem"; g_cost := {[ "gp" := 5 ]} |});
    ("reliquary", {| g_name := "Reliquary"; g_cost := {[ "gp" := 5 ]} |}) ].

Definition MUSICAL_INSTRUMENT_OPTIONS : gmap string gear_item :=
  list_to_map [
    ("bagpipes", {| g_name := "Bagpipes"; g_cost := {[ "gp" := 30 ]} |});
    ("drum", {| g_name := "Drum"; g_cost := {[ "gp" := 6 ]} |});
    ("dulcimer", {| g_name := "Dulcimer"; g_cost := {[ "gp" := 25 ]} |});
    ("flute", {| g_name := "Flute"; g_cost := {[ "gp" := 2 ]} |});
    ("lute", {| g_name := "Lute"; g_cost := {[ "gp" := 35 ]} |});
    ("lyre", {| g_name := "Lyre"; g_cost := {[ "gp" := 30 ]} |});
    ("horn", {| g_name := "Horn"; g_cost := {[ "gp" := 3 ]} |});
    ("pan_flute", {| g_name := "Pan Flute"; g_cost := {[ "gp" := 12 ]} |});
    ("shawm", {| g_name := "Shawm"; g_cost := {[ "gp" := 2 ]} |});
    ("viol", {| g_name := "Viol"; g_cost := {[ "gp" := 30 ]} |}) ].

Definition TOOL_OPTIONS : gmap string gear_item :=
  list_to_map [
    ("alchemists_supplies", {| g_name := "Alchemist's Supplies"; g_cost := {[ "gp" := 50 ]} |});
    ("brewers_supplies", {| g_name := "Brewer's Supplies"; g_cost := {[ "gp" := 20 ]} |});
    ("calligraphers_supplies", {| g_name := "Calligrapher's Supplies"; g_cost := {[ "gp" := 10 ]} |});
    ("carpenters_tools", {| g_name := "Carpenter's Tools"; g_cost := {[ "gp" := 8 ]} |});
    ("cartographers_tools", {| g_name := "Cartographer's Tools"; g_cost := {[ "gp" := 15 ]} |});
    ("cobblers_tools", {| g_name := "Cobbler's Tools"; g_cost := {[ "gp" := 5 ]} |});
    ("cooks_utensils", {| g_name := "Cook's Utensils"; g_cost := {[ "gp" := 2 ]} |});
    ("glassblowers_tools", {| g_name := "Glassblower's Tools"; g_cost := {[ "gp" := 30 ]} |});
    ("jewelers_tools", {| g_name := "Jeweler's Tools"; g_cost := {[ "gp" := 25 ]} |});
    ("leatherworkers_tools", {| g_name := "Leatherworker's Tools"; g_cost := {[ "gp" := 5 ]} |});
    ("masons_tools", {| g_name := "Mason's Tools"; g_cost := {[ "gp" := 10 ]} |});
    ("painters_supplies", {| g_name := "Painter's Supplies"; g_cost := {[ "gp" := 10 ]} |});
    ("potters_tools", {| g_name := "Potter's Tools"; g_cost := {[ "gp" := 10 ]} |});
    ("smiths_tools", {| g_name := "Smith's Tools"; g_cost := {[ "gp" := 20 ]} |});
    ("tinkers_tools", {| g_name := "Tinker's Tools"; g_cost := {[ "gp" := 50 ]} |});
    ("weavers_tools", {| g_name := "Weaver's Tools"; g_cost := {[ "gp" := 1 ]} |});
    ("woodcarvers_tools", {| g_name := "Woodcarver's Tools"; g_cost := {[ "gp" := 1 ]} |});
    ("disguise_kit", {| g_name := "Disguise Kit"; g_cost := {[ "gp" := 25 ]} |});
    ("forgery_kit", {| g_name := "Forgery Kit"; g_cost := {[ "gp" := 15 ]} |});
    ("herbalism_kit", {| g_name := "Herbalism Kit"; g_cost := {[ "gp" := 5 ]} |});
    ("navigators_tools", {| g_name := "Navigator's Tools"; g_cost := {[ "gp" := 25 ]} |});
    ("poisoners_kit", {| g_name := "Poisoner's Kit"; g_cost := {[ "gp" := 50 ]} |});
    ("thieves_tools", {| g_name := "Thieves' Tools"; g_cost := {[ "gp" := 25 ]} |}) ].

Definition ADVENTURING_GEAR : gmap string gear_item :=
  list_to_map [
    ("acid", {| g_name := "Acid"; g_cost := {[ "gp" := 25 ]} |});
    ("alchemists_fire", {| g_name := "Alchemist's Fire"; g_cost := {[ "gp" := 50 ]} |});
    ("antitoxin", {| g_name := "Antitoxin"; g_cost := {[ "gp" := 50 ]} |});
    ("backpack", {| g_name := "Backpack"; g_cost := {[ "gp" := 2 ]} |});
    ("ball_bearings", {| g_name := "Ball Bearings (bag of 1000)"; g_cost := {[ "gp" := 1 ]} |});
    ("barrel", {| g_name := "Barrel"; g_cost := {[ "gp" := 2 ]} |});
    ("basket", {| g_name := "Basket"; g_cost := {[ "sp" := 4 ]} |});
    ("bedroll", {| g_name := "Bedroll"; g_cost := {[ "gp" := 1 ]} |});
    ("bell", {| g_name := "Bell"; g_cost := {[ "gp" := 1 ]} |});
    ("blanket", {| g_name := "Blanket"; g_cost := {[ "sp" := 5 ]} |});
    ("block_and_tackle", {| g_name := "Block and Tackle"; g_cost := {[ "gp" := 1 ]} |});
    ("book", {| g_name := "Book"; g_cost := {[ "gp" := 25 ]} |});
    ("glass_bottle", {| g_name := "Glass Bottle"; g_cost := {[ "gp" := 2 ]} |});
    ("bucket", {| g_name := "Bucket"; g_cost := {[ "cp" := 5 ]} |});
    ("burglars_pack", {| g_name := "Burglar's Pack"; g_cost := {[ "gp" := 16 ]} |});
    ("caltrops", {| g_name := "Caltrops (bag of 20)"; g_cost := {[ "gp" := 1 ]} |});
    ("candle", {| g_name := "Candle"; g_cost := {[ "cp" := 1 ]} |});
    ("crossbow_bolt_case", {| g_name := "Crossbow Bolt Case"; g_cost := {[ "gp" := 1 ]} |});
    ("map_case", {| g_name := "Map or Scroll Case"; g_cost := {[ "gp" := 1 ]} |});
    ("chain", {| g_name := "Chain (10 feet)"; g_cost := {[ "gp" := 5 ]} |});
    ("chest", {| g_name := "Chest"; g_cost := {[ "gp" := 5 ]} |});
    ("climbers_kit", {| g_name := "Climber's Kit"; g_cost := {[ "gp" := 25 ]} |});
    ("clothes_fine", {| g_name := "Fine Clothes"; g_cost := {[ "gp" := 15 ]} |});
    ("clothes_travelers", {| g_name := "Traveler's Clothes"; g_cost := {[ "gp" := 2 ]} |});
    ("component_pouch", {| g_name := "Component Pouch"; g_cost := {[ "gp" := 25 ]} |});
    ("costume", {| g_name := "Costume"; g_cost := {[ "gp" := 5 ]} |});
    ("crowbar", {| g_name := "Crowbar"; g_cost := {[ "gp" := 2 ]} |});
    ("diplomats_pack", {| g_name := "Diplomat's Pack"; g_cost := {[ "gp" := 39 ]} |});
    ("dungeoneers_pack", {| g_name := "Dungeoneer's Pack"; g_cost := {[ "gp" := 12 ]} |});
    ("entertainers_pack", {| g_name := "Entertainer's Pack"; g_cost := {[ "gp" := 40 ]} |});
    ("explorers_pack", {| g_name := "Explorer's Pack"; g_cost := {[ "gp" := 10 ]} |});
    ("flask", {| g_name := "Flask"; g_cost := {[ "cp" := 2 ]} |});
    ("grappling_hook", {| g_name := "Grappling Hook"; g_cost := {[ "gp" := 2 ]} |});
    ("healers_kit", {| g_name := "Healer's Kit"; g_cost := {[ "gp" := 5 ]} |});
    ("holy_water", {| g_name := "Holy Water (flask)"; g_cost := {[ "gp" := 25 ]} |});
    ("hunting_trap", {| g_name := "Hunting Trap"; g_cost := {[ "gp" := 5 ]} |});
    ("ink", {| g_name := "Ink (1 ounce bottle)"; g_cost := {[ "gp" := 10 ]} |});
    ("ink_pen", {| g_name := "Ink Pen"; g_cost := {[ "cp" := 2 ]} |});
    ("jug", {| g_name := "Jug"; g_cost := {[ "cp" := 2 ]} |});
    ("ladder", {| g_name := "Ladder (10-foot)"; g_cost := {[ "sp" := 1 ]} |});
    ("lamp", {| g_name := "Lamp"; g_cost := {[ "sp" := 5 ]} |});
    ("lantern_bullseye", {| g_name := "Bullseye Lantern"; g_cost := {[ "gp" := 10 ]} |});
    ("lantern_hooded", {| g_name := "Hooded Lantern"; g_cost := {[ "gp" := 5 ]} |});
    ("lock", {| g_name := "Lock"; g_cost := {[ "gp" := 10 ]} |});
    ("magnifying_glass", {| g_name := "Magnifying Glass"; g_cost := {[ "gp" := 100 ]} |});
    ("manacles", {| g_name := "Manacles"; g_cost := {[ "gp" := 2 ]} |});
    ("map", {| g_name := "Map"; g_cost := {[ "gp" := 1 ]} |});
    ("mirror", {| g_name := "Mirror, Steel"; g_cost := {[ "gp" := 5 ]} |});
    ("net", {| g_name := "Net"; g_cost := {[ "gp" := 1 ]} |});
    ("oil", {| g_name := "Oil (flask)"; g_cost := {[ "sp" := 1 ]} |});
    ("paper", {| g_name := "Paper (one sheet)"; g_cost := {[ "sp" := 2 ]} |});
    ("parchment", {| g_name := "Parchment (one sheet)"; g_cost := {[ "sp" := 1 ]} |});
    ("perfume", {| g_name := "Perfume (vial)"; g_cost := {[ "gp" := 5 ]} |});
    ("basic_poison", {| g_name := "Basic Poison (vial)"; g_cost := {[ "gp" := 100 ]} |});
    ("pole", {| g_name := "Pole (10-foot)"; g_cost := {[ "cp" := 5 ]} |});
    ("iron_pot", {| g_name := "Iron Pot"; g_cost := {[ "gp" := 2 ]} |});
    ("potion_of_healing", {| g_name := "Potion of Healing"; g_cost := {[ "gp" := 50 ]} |});
    ("pouch", {| g_name := "Pouch"; g_cost := {[ "sp" := 5 ]} |});
    ("priests_pack", {| g_name := "Priest's Pack"; g_cost := {[ "gp" := 33 ]} |});
    ("quiver", {| g_name := "Quiver"; g_cost := {[ "gp" := 1 ]} |});
    ("portable_ram", {| g_name := "Portable Ram"; g_cost := {[ "gp" := 4 ]} |});
    ("rations", {| g_name := "Rations (1 day)"; g_cost := {[ "sp" := 5 ]} |});
    ("robe", {| g_name := "Robes"; g_cost := {[ "gp" := 1 ]} |});
    ("rope_hemp", {| g_name := "Rope, Hemp (50 feet)"; g_cost := {[ "gp" := 1 ]} |});
    ("sack", {| g_name := "Sack"; g_cost := {[ "cp" := 1 ]} |});
    ("scholars_pack", {| g_name := "Scholar's Pack"; g_cost := {[ "gp" := 40 ]} |});
    ("shovel", {| g_name := "Shovel"; g_cost := {[ "gp" := 2 ]} |});
    ("signal_whistle", {| g_name := "Signal Whistle"; g_cost := {[ "cp" := 5 ]} |});
    ("iron_spikes", {| g_name := "Iron Spikes (10)"; g_cost := {[ "gp" := 1 ]} |});
    ("string", {| g_name := "String (10 feet)"; g_cost := {[ "sp" := 1 ]} |});
    ("tent", {| g_name := "Tent, Two-person"; g_cost := {[ "gp" := 2 ]} |});
    ("tinderbox", {| g_name := "Tinderbox"; g_cost := {[ "sp" := 5 ]} |});
    ("torch", {| g_name := "Torch"; g_cost := {[ "cp" := 1 ]} |});
    ("vial", {| g_name := "Vial"; g_cost := {[ "gp" := 1 ]} |});
    ("waterskin", {| g_name := "Waterskin"; g_cost := {[ "sp" := 2 ]} |}) ].

(** data/equipment/__init__.py: [CLASS_PROFICIENCIES] *)
Definition CLASS_PROFICIENCIES : gmap string (gmap string (list string)) :=
  list_to_map [
    ("Fighter", {[ "armor" := ["light"; "medium"; "heavy"; "shields"];
         "weapons" := ["simple_melee"; "simple_ranged"; "martial_melee"; "martial_ranged"] ]});
    ("Rogue", {[ "armor" := ["light"];
         "weapons" := ["simple_melee"; "simple_ranged"; "hand crossbow"; "longsword"; "rapier"; "shortsword"] ]});
    ("Wizard", {[ "armor" := [];
         "weapons" := ["dagger"; "dart"; "sling"; "quarterstaff"; "light crossbow"] ]});
    ("Cleric", {[ "armor" := ["light"; "medium"; "shields"];
         "weapons" := ["simple_melee"; "simple_ranged"] ]}) ].

(** data/spells.py: a spell is a [(key, label)] pair; cleric cantrips
    are [(key, label, requires_concentration)] triples. *)
Definition wizard_cantrips : list spell_entry :=
  [ Spell2 "acid_splash" "Acid Splash";
    Spell2 "blade_ward" "Blade Ward (Concentration)";
    Spell2 "chill_touch" "Chill Touch";
    Spell2 "dancing_lights" "Dancing Lights (Concentration)";
    Spell2 "elementalism" "Elementalism";
    Spell2 "fire_bolt" "Fire Bolt";
    Spell2 "friends" "Friends (Concentration)";
    Spell2 "light" "Light";
    Spell2 "mage_hand" "Mage Hand";
    Spell2 "mending" "Mending";
    Spell2 "message" "Message";
    Spell2 "mind_sliver" "Mind Sliver";
    Spell2 "minor_illusion" "Minor Illusion";
    Spell2 "poison_spray" "Poison Spray";
    Spell2 "prestidigitation" "Prestidigitation";
    Spell2 "ray_of_frost" "Ray of Frost";
    Spell2 "shocking_grasp" "Shocking Grasp";
    Spell2 "thunderclap" "Thunderclap";
    Spell2 "toll_the_dead" "Toll the Dead";
    Spell2 "true_strike" "True Strike" ].

Definition wizard_level1_spells : list spell_entry :=
  [ Spell2 "alarm" "Alarm";
    Spell2 "burning_hands" "Burning Hands";
    Spell2 "charm_person" "Charm Person";
    Spell2 "chromatic_orb" "Chromatic Orb";
    Spell2 "color_spray" "Color Spray";
    Spell2 "comprehend_languages" "Comprehend Languages";
    Spell2 "detect_magic" "Detect Magic";
    Spell2 "disguise_self" "Disguise Self";
    Spell2 "expeditious_retreat" "Expeditious Retreat";
    Spell2 "false_life" "False Life";
    Spell2 "feather_fall" "Feather Fall";
    Spell2 "find_familiar" "Find Familiar";
    Spell2 "fog_cloud" "Fog Cloud";
    Spell2 "grease" "Grease";
    Spell2 "ice_knife" "Ice Knife";
    Spell2 "identify" "Identify";
    Spell2 "illusory_script" "Illusory Script";
    Spell2 "jump" "Jump";
    Spell2 "longstrider" "Longstrider";
    Spell2 "mage_armor" "Mage Armor";
    Spell2 "magic_missile" "Magic Missile";
    Spell2 "protection_from_evil_and_good" "Protection from Evil and Good";
    Spell2 "ray_of_sickness" "Ray of Sickness";
    Spell2 "shield" "Shield";
    Spell2 "silent_image" "Silent Image";
    Spell2 "sleep" "Sleep";
    Spell2 "tashas_hideous_laughter" "Tasha's Hideous Laughter";
    Spell2 "tensers_floating_disk" "Tenser's Floating Disk";
    Spell2 "thunderwave" "Thunderwave";
    Spell2 "unseen_servant" "Unseen Servant";
    Spell2 "witch_bolt" "Witch Bolt" ].

Definition cleric_cantrips : list spell_entry :=
  [ Spell3 "guidance" "Guidance" true;
    Spell3 "light" "Light" false;
    Spell3 "mending" "Mending" false;
    Spell3 "resistance" "Resistance" true;
    Spell3 "sacred_flame" "Sacred Flame" false;
    Spell3 "spare_the_dying" "Spare the Dying" false;
    Spell3 "thaumaturgy" "Thaumaturgy" false;
    Spell3 "toll_the_dead" "Toll the Dead" false;
    Spell3 "word_of_radiance" "Word of Radiance" false ].

Definition level1_cleric_spells : list spell_entry :=
  [ Spell2 "bane" "Bane";
    Spell2 "bless" "Bless";
    Spell2 "command" "Command";
    Spell2 "create_or_destroy_water" "Create or Destroy Water";
    Spell2 "cure_wounds" "Cure Wounds";
    Spell2 "detect_evil_and_good" "Detect Evil and Good";
    Spell2 "detect_magic" "Detect Magic";
    Spell2 "detect_poison_and_disease" "Detect Poison and Disease";
    Spell2 "guiding_bolt" "Guiding Bolt";
    Spell2 "healing_word" "Healing Word";
    Spell2 "inflict_wounds" "Inflict Wounds";
    Spell2 "protection_from_evil_and_good" "Protection from Evil and Good";
    Spell2 "purify_food_and_drink" "Purify Food and Drink";
    Spell2 "sanctuary" "Sanctuary";
    Spell2 "shield_of_faith" "Shield of Faith" ].


(** characters.py: [CLASS_HIT_DIE] *)
Definition CLASS_HIT_DIE : gmap string Z :=
  {[ "Cleric" := 8; "Fighter" := 10; "Rogue" := 8; "Wizard" := 6 ]}.

(** characters.py, [step5_equipment]: [class_starting_gold] *)
Definition class_starting_gold : gmap string Z :=
  {[ "Cleric" := 110; "Fighter" := 155; "Rogue" := 100; "Wizard" := 55 ]}.

(** characters.py, [step3_class]: [primary_abilities] *)
Definition primary_abilities : gmap string string :=
  {[ "Wizard" := "Intelligence"; "Cleric" := "Wisdom"; "Rogue" := "Dexterity" ]}.

(** data/equipment/__init__.py: [has_armor_proficiency] *)
Definition has_armor_proficiency (char_class armor_type : string) : bool :=
  if negb (PyStr.truthy char_class) then false
  else bool_decide (armor_type ∈
         default [] (default ∅ (CLASS_PROFICIENCIES !! char_class) !! "armor")).

(** data/equipment/__init__.py: [has_weapon_proficiency], on a weapon
    category (the [isinstance(weapon_info, str)] branch, the only one the
    routes reach). *)
Definition has_weapon_proficiency (char_class weapon_info : string) : bool :=
  if negb (PyStr.truthy char_class) then false
  else
    let proficiencies :=
      default [] (default ∅ (CLASS_PROFICIENCIES !! char_class) !! "weapons") in
    bool_decide (weapon_info ∈ proficiencies).

End Data.

(** ** utils/armor_utils.py *)

Module ArmorUtils.
Import Data.

(** [calculate_ac(armor=None, shield=None, dex_modifier=0)] *)
Definition calculate_ac (armor : option armor_item) (shield : option shield_item)
    (dex_modifier : Z) : Z :=
  let base_ac := 10 in
  match armor with
  | None => base_ac + dex_modifier
  | Some armor =>
      let total_ac := ac armor in
      let total_ac :=
        if add_dex armor then
          let dex_bonus :=
            match max_dex armor with
            | Some cap => Z.min dex_modifier cap
            | None => dex_modifier
            end in
          total_ac + dex_bonus
        else total_ac in
      let total_ac :=
        match shield with
        | Some shield => total_ac + ac_bonus shield
        | None => total_ac
        end in
      total_ac
  end.

End ArmorUtils.

(** ** characters.py: [roll_stat]

    [random.randint(1, 6)] draws from a source of dice given as the list of
    the values still to come; a draw from the empty list is the model
    running out of dice, not a behaviour of the program. *)

Module Dice.

(** [roll = random.randint(1, 6); while roll <= 2: roll = random.randint(1, 6)] *)
Fixpoint reroll (src : list Z) (roll : Z) : option (Z * list Z) :=
  if (roll <=? 2)%Z then
    match src with
    | [] => None
    | r :: src' => reroll src' r
    end
  else Some (roll, src).

Definition roll_die (src : list Z) : option (Z * list Z) :=
  match src with
  | [] => None
  | r :: src' => reroll src' r
  end.

(** [for _ in range(n): ...; rolls.append(roll)] *)
Fixpoint roll_dice (n : nat) (rolls : list Z) (src : list Z) : option (list Z * list Z) :=
  match n with
  | O => Some (rolls, src)
  | S n' =>
      '(roll, src') ← roll_die src;
      roll_dice n' (rolls ++ [roll]) src'
  end.

(** [sorted(rolls)], ascending. *)
Fixpoint insert_sorted (x : Z) (l : list Z) : list Z :=
  match l with
  | [] => [x]
  | y :: l' => if (x <=? y)%Z then x :: l else y :: insert_sorted x l'
  end.

Definition sorted (l : list Z) : list Z := foldr insert_sorted [] l.

(** [sum(l)] *)
Definition sum (l : list Z) : Z := foldr Z.add 0 l.

Definition roll_stat (src : list Z) : option (Z * list Z) :=
  '(rolls, src') ← roll_dice 4 [] src;
  let rolls := sorted rolls in
  Some (sum (drop 1 rolls), src').

End Dice.

(** ** The Flask session and the routes of characters.py *)

Inductive http_method := GET | POST.

#[global] Instance http_method_eq_dec : EqDecision http_method.
Proof. solve_decision. Defined.

Section Routes.
Context {F : Type} `{PyFloat F}.
Import Data.

(** *** Stored values *)

(** An entry of [equipment['weapons']], built by [selected_equipment]. *)
Record weapon_sel := {
  ws_name : string;
  ws_category : string;
  ws_damage : string;
  ws_damage_type : string;
  ws_properties : list string;
  ws_cost : gmap string Z;
}.

(** An entry of [equipment['unusable_items']]. *)
Record unusable_item := {
  u_item : string;                 (* 'item' *)
  u_type : string;                 (* 'type' *)
  u_reason : string;               (* 'reason' *)
}.

(** The dict built by [EquipmentForm.selected_equipment]; the route adds
    ['armor_class'] and ['unusable_items'] to it. *)
Record equipment_t := {
  e_armor : option armor_item;
  e_shield : option shield_item;
  e_weapons : list weapon_sel;
  e_adventuring_gear : list gear_item;
  e_special_equipment : gmap string gear_item;
  total_cost_gp : F;
  armor_class : option Z;
  unusable_items : option (list unusable_item);
}.

(** What the routes store in the session. *)
Inductive value :=
| VNone
| VStr (s : string)
| VInt (n : Z)
| VStrs (l : list string)
| VInts (d : gmap string Z)        (* stats, coins *)
| VEquipment (e : equipment_t).

(** The session as a dict.  Each key only ever holds the kind of value the
    routes store under it; the typed reads below treat anything else as
    an absent key.  Flashed messages are returned with the response. *)
Definition get_str (session : gmap string value) (k : string) : option string :=
  match session !! k with Some (VStr x) => Some x | _ => None end.

Definition get_int (session : gmap string value) (k : string) : option Z :=
  match session !! k with Some (VInt x) => Some x | _ => None end.

Definition get_ints (session : gmap string value) (k : string) : option (gmap string Z) :=
  match session !! k with Some (VInts x) => Some x | _ => None end.

(** [(session.get("adjusted_stats", {}).get(ability, 10) - 10) // 2] *)
Definition adjusted_mod (session : gmap string value) (ability : string) : Z :=
  (default 10 (default ∅ (get_ints session "adjusted_stats") !! ability) - 10) `div` 2.

(** *** Responses *)

(** A validation message of the equipment form; the one message that
    formats floats keeps them as they are. *)
Inductive message :=
| Msg (text : string)
| MsgCostExceedsBudget (total_cost budget : F).

(** The [equipment] handed to the equipment template. *)
Inductive shown_equipment :=
| NotShown
| InitialEquipment (base_ac : Z)
| Resolved (e : equipment_t).

Inductive response :=
| Redirect (endpoint : string) (flashed : list message)
| Render (template : string) (flashed : list message)
| RenderEquipment (flashed : list message) (starting_funds : Z)
    (remaining_coins : gmap string Z) (remaining_funds : F)
    (preview : bool) (equipment : shown_equipment).

(** *** Step 3: choose class *)

(** The submitted [ClassForm].  [wtf_valid] is the outcome of Flask-WTF's
    own validation of the form (CSRF token, declared validators and
    choices), which is library code. *)
Record class_request := {
  c_method : http_method;
  c_wtf_valid : bool;
  class_choice : string;
  primary_ability : option string;
}.

(** [if chosen_class != "Rogue": session["expertise"] = []] *)
Definition clear_expertise (chosen_class : string) (session : gmap string value)
  : gmap string value :=
  if bool_decide (chosen_class ≠ "Rogue")
  then <["expertise" := VStrs []]> session else session.

(** The six [session.pop(key, None)] that follow. *)
Definition clear_leftovers (session : gmap string value) : gmap string value :=
  let session := delete "equipment" session in
  let session := delete "coins_left" session in
  let session := delete "skill_proficiencies" session in
  let session := delete "fighting_style" session in
  let session := delete "cantrips" session in
  let session := delete "level1_spells" session in
  session.

(** [session["max_hp"] = max_hp; session["current_hp"] = max_hp] *)
Definition set_hp (max_hp : Z) (session : gmap string value) : gmap string value :=
  <["current_hp" := VInt max_hp]> (<["max_hp" := VInt max_hp]> session).

Definition step3_class (session : gmap string value) (r : class_request)
  : option (gmap string value * response) :=
  if bool_decide (c_method r = POST) && c_wtf_valid r then
    let chosen_class := class_choice r in
    let session := <["class" := VStr chosen_class]> session in
    let session := clear_expertise chosen_class session in
    let session := clear_leftovers session in
    hit_die ← CLASS_HIT_DIE !! chosen_class;
    let con_mod := default 0 (get_int session "constitution_modifier") in
    let max_hp := hit_die + con_mod in
    let session := set_hp max_hp session in
    if bool_decide (chosen_class = "Fighter") then
      match primary_ability r with
      | Some ability =>
          if PyStr.truthy ability then
            Some (<["primary_ability" := VStr ability]> session,
                  Redirect "characters.fighter_selection" [])
          else
            Some (session,
                  Render "class.html"
                    [Msg "Fighters must select a primary ability: Strength or Dexterity."])
      | None =>
          Some (session,
                Render "class.html"
                  [Msg "Fighters must select a primary ability: Strength or Dexterity."])
      end
    else
      let session :=
        <["primary_ability" :=
            match primary_abilities !! chosen_class with
            | Some a => VStr a
            | None => VNone
            end]> session in
      let session := delete "fighting_style" session in
      Some (session, Redirect "characters.step4_skills" [])
  else Some (session, Render "class.html" []).

(** *** Step 4: forms/skills_form.py *)

Inductive validation :=
| Passed
| ValidationError (text : string).

(** A bound [SkillsForm]: what [__init__] sets and the submitted data.
    [field.data or []] makes a missing field an empty list. *)
Record SkillsForm := {
  char_class : option string;
  skills_required : Z;
  skills_data : list string;
  expertise_data : list string;
}.

(** [SkillsForm.__init__(allowed_skills, char_class)] with the submitted
    lists bound to the two fields. *)
Definition SkillsForm_init (char_class : option string)
    (skills expertise : list string) : SkillsForm :=
  {| char_class := char_class;
     skills_required := if bool_decide (char_class = Some "Rogue") then 4 else 2;
     skills_data := skills;
     expertise_data := expertise |}.

Definition validate_skills (self : SkillsForm) : validation :=
  if bool_decide (Z.of_nat (length (skills_data self)) ≠ skills_required self) then
    if bool_decide (skills_required self = 4)
    then ValidationError "You must pick exactly four skills."
    else ValidationError "You must pick exactly two skills."
  else Passed.

(** The [for skill in field.data] loop of [validate_expertise]. *)
Fixpoint check_expertise (expertise skills : list string) : validation :=
  match expertise with
  | [] => Passed
  | skill :: rest =>
      if bool_decide (skill ∉ skills)
      then ValidationError "You can only choose Expertise in skills you're proficient with."
      else check_expertise rest skills
  end.

Definition validate_expertise (self : SkillsForm) : validation :=
  if bool_decide (char_class self = Some "Rogue") then
    if bool_decide (length (expertise_data self) ≠ 2%nat)
    then ValidationError "Rogues must choose exactly 2 skills for Expertise."
    else check_expertise (expertise_data self) (skills_data self)
  else Passed.

(** The errors the form's own validators leave on its two fields. *)
Definition SkillsForm_errors (self : SkillsForm) : list (string * string) :=
  match validate_skills self with
  | ValidationError e => [("skills", e)]
  | Passed => []
  end ++
  match validate_expertise self with
  | ValidationError e => [("expertise", e)]
  | Passed => []
  end.

(** *** Spell selection *)




(** *** Step 5: forms/equipment_form_clean.py and [step5_equipment] *)

(** The submitted equipment form.  Field ids are ["category:name"]
    strings; an unselected [SelectField] is the empty string.
    [e_wtf_valid] is the outcome of [super().validate()]. *)
Record equipment_request := {
  e_method : http_method;
  referrer : option string;                (* [request.referrer] *)
  action : option string;                  (* [request.form.get('action')] *)
  e_wtf_valid : bool;
  armor : string;
  shield : string;
  simple_melee : list string;
  simple_ranged : list string;
  martial_melee : list string;
  martial_ranged : list string;
  adventuring_gear : list string;
  has_tools : bool;
  tool_selection : string;
  has_musical_instrument : bool;
  musical_instrument_selection : string;
  has_arcane_focus : bool;
  arcane_focus_selection : string;
  has_holy_symbol : bool;
  holy_symbol_selection : string;
  has_ammunition : bool;
  ammunition_selection : string;
  has_spell_scroll : bool;
  spell_scroll_level : option string;
  spell_scroll_class : option string;
}.

(** The attributes of an [EquipmentForm] that the route and [validate]
    set, next to the bound data. *)
Record EquipmentForm := {
  data : equipment_request;
  form_class : string;                     (* [form.char_class] *)
  budget : Z;                              (* [form.budget.data], [str(budget_gp)] *)
  remaining_funds : F;
  total_cost : F;
  validation_errors : list message;
}.

(** [x or d] on an optional string. *)
Definition or_default (x : option string) (d : string) : string :=
  match x with
  | Some v => if PyStr.truthy v then v else d
  | None => d
  end.

(** [_setup_choices], its last part: the choices of the spell-scroll
    field.  [(key, name) for key, name in spell_list] unpacks pairs; a
    triple raises [ValueError].  The other choices are filled from the
    static tables and cannot fail. *)
Definition get_spell_choices (spell_class level : string) : list spell_entry :=
  if bool_decide (spell_class = "wizard") then
    if bool_decide (level = "0") then wizard_cantrips else wizard_level1_spells
  else if bool_decide (spell_class = "cleric") then
    if bool_decide (level = "0") then cleric_cantrips else level1_cleric_spells
  else [].

Definition unpack_pair (e : spell_entry) : option (string * string) :=
  match e with
  | Spell2 key name => Some (key, name)
  | Spell3 _ _ _ => None
  end.

Definition _setup_choices (r : equipment_request) : option (list (string * string)) :=
  let spell_class := or_default (spell_scroll_class r) "wizard" in
  let spell_level := or_default (spell_scroll_level r) "0" in
  choices ← mapM unpack_pair (get_spell_choices spell_class spell_level);
  Some (("", "-- Select Spell --") :: choices).

(** [EquipmentForm(form_data)] followed by the route's
    [form.char_class = char_class]; the budget is the one the route puts
    in the form data. *)
Definition EquipmentForm_init (r : equipment_request) (char_class : string)
    (budget_gp : Z) : option EquipmentForm :=
  _ ← _setup_choices r;
  Some {| data := r; form_class := char_class; budget := budget_gp;
          remaining_funds := f_of_int 0; total_cost := f_of_int 0;
          validation_errors := [] |}.

(** [for row in rows: if row['name'] == name: ...; break] and
    [next((row for row in rows if row['name'] == name), None)] *)
Definition find_armor (rows : list armor_row) (name : string) : option armor_row :=
  list_find (λ row, row_name row = name) rows ≫= λ p, Some p.2.

Definition find_weapon (rows : list weapon_row) (name : string) : option weapon_row :=
  list_find (λ row, w_name row = name) rows ≫= λ p, Some p.2.

(** Cost of the armor or shield with id [sel], added to [total_gp]. *)
Definition add_armor_cost (sel : string) (total_gp : F) : option F :=
  if PyStr.truthy sel then
    '(armor_type, armor_name) ← PyStr.split_pair sel;
    rows ← ARMOR !! armor_type;
    match find_armor rows armor_name with
    | Some row => Some (f_add total_gp (_convert_to_gp (row_cost row)))
    | None => Some total_gp
    end
  else Some total_gp.

Definition add_weapon_cost (total_gp : option F) (weapon_id : string) : option F :=
  total_gp ← total_gp;
  '(weapon_category, weapon_name) ← PyStr.split_pair weapon_id;
  rows ← WEAPONS !! weapon_category;
  match find_weapon rows weapon_name with
  | Some weapon => Some (f_add total_gp (_convert_to_gp (w_cost weapon)))
  | None => Some total_gp
  end.

(** One special item: its checkbox, its selection and its table. *)
Definition add_special_cost (checked : bool) (selection : string)
    (options : gmap string gear_item) (total_gp : F) : F :=
  if checked && PyStr.truthy selection then
    match options !! selection with
    | Some item => f_add total_gp (_convert_to_gp (g_cost item))
    | None => total_gp
    end
  else total_gp.

Definition add_gear_cost (total_gp : F) (item_id : string) : F :=
  match ADVENTURING_GEAR !! item_id with
  | Some item => f_add total_gp (_convert_to_gp (g_cost item))
  | None => total_gp
  end.

(** [EquipmentForm.calculate_total_cost]; [None] is an exception raised
    by a malformed id ([ValueError] of the unpacking, [KeyError] of the
    category). *)
Definition calculate_total_cost (self : EquipmentForm) : option F :=
  let r := data self in
  let total_gp := f_of_int 0 in
  total_gp ← add_armor_cost (armor r) total_gp;
  total_gp ← add_armor_cost (shield r) total_gp;
  total_gp ← foldl add_weapon_cost (Some total_gp)
               (simple_melee r ++ simple_ranged r ++ martial_melee r ++ martial_ranged r);
  let total_gp :=
    add_special_cost (has_arcane_focus r) (arcane_focus_selection r)
      ARCANE_FOCUS_OPTIONS total_gp in
  let total_gp :=
    add_special_cost (has_holy_symbol r) (holy_symbol_selection r)
      HOLY_SYMBOL_OPTIONS total_gp in
  let total_gp :=
    add_special_cost (has_ammunition r) (ammunition_selection r)
      AMMUNITION_OPTIONS total_gp in
  let total_gp :=
    add_special_cost (has_musical_instrument r) (musical_instrument_selection r)
      MUSICAL_INSTRUMENT_OPTIONS total_gp in
  let total_gp :=
    add_special_cost (has_tools r) (tool_selection r) TOOL_OPTIONS total_gp in
  let total_gp :=
    if has_spell_scroll r then
      if bool_decide (spell_scroll_level r = Some "0") then f_add total_gp (f_of_int 30)
      else if bool_decide (spell_scroll_level r = Some "1") then f_add total_gp (f_of_int 50)
      else total_gp
    else total_gp in
  Some (foldl add_gear_cost total_gp (adventuring_gear r)).

(** [self.validation_errors.append(e)] *)
Definition add_error (self : EquipmentForm) (e : message) : EquipmentForm :=
  {| data := data self; form_class := form_class self; budget := budget self;
     remaining_funds := remaining_funds self; total_cost := total_cost self;
     validation_errors := validation_errors self ++ [e] |}.

(** [self.remaining_funds = budget - total_cost; self.total_cost = total_cost] *)
Definition set_costs (self : EquipmentForm) (remaining cost : F) : EquipmentForm :=
  {| data := data self; form_class := form_class self; budget := budget self;
     remaining_funds := remaining; total_cost := cost;
     validation_errors := validation_errors self |}.

(** The armor-proficiency check of [validate]: the error it appends, if
    any.  The unpacking of the id sits inside [validate]'s [try], whose
    [except (ValueError, TypeError)] reports ['Invalid budget value']. *)
Definition armor_check (self : EquipmentForm) : option message :=
  let r := data self in
  if PyStr.truthy (armor r) then
    match PyStr.split_pair (armor r) with
    | Some (armor_type, armor_name) =>
        if negb (has_armor_proficiency (form_class self) armor_type) then
          Some (Msg (form_class self ++ "s are not proficient with "
                     ++ armor_type ++ " armor")%string)
        else None
    | None => Some (Msg "Invalid budget value")
    end
  else None.

(** The class-specific restrictions of [validate]. *)
Definition class_restriction (self : EquipmentForm) : option message :=
  let r := data self in
  if bool_decide (form_class self = "Wizard") then
    if has_holy_symbol r && PyStr.truthy (holy_symbol_selection r)
    then Some (Msg "Wizards cannot use Holy Symbols") else None
  else if bool_decide (form_class self = "Cleric") then
    if has_arcane_focus r && PyStr.truthy (arcane_focus_selection r)
    then Some (Msg "Clerics cannot use Arcane Focus items") else None
  else None.

(** [EquipmentForm.validate]: the verdict and the form as [validate]
    leaves it. *)
Definition validate (self : EquipmentForm) : option (bool * EquipmentForm) :=
  let r := data self in
  if negb (e_wtf_valid r) then
    Some (false,
          add_error self (Msg "Form validation failed. Please check all required fields."))
  else
    total_cost ← calculate_total_cost self;
    let budget := f_of_int (budget self) in
    let self := set_costs self (f_sub budget total_cost) total_cost in
    if f_gt total_cost budget then
      Some (false, add_error self (MsgCostExceedsBudget total_cost budget))
    else
      match armor_check self with
      | Some e => Some (false, add_error self e)
      | None =>
          match class_restriction self with
          | Some e => Some (false, add_error self e)
          | None =>
              let self := set_costs self (f_sub budget total_cost) total_cost in
              (* [action = request.form.get('action', '')] *)
              if bool_decide (default "" (action r) = "purchase") && f_gt total_cost budget
              then Some (false, add_error self (Msg "Total cost exceeds available funds"))
              else Some (true, self)
          end
      end.

Definition gear_entry (item : gear_item) : gear_item :=
  {| g_name := g_name item; g_cost := g_cost item |}.

(** The weapons loop of [selected_equipment]. *)
Definition add_selected_weapon (acc : option (list weapon_sel)) (selection : string)
  : option (list weapon_sel) :=
  weapons ← acc;
  if PyStr.truthy selection then
    '(cat, name) ← PyStr.split_pair selection;
    rows ← WEAPONS !! cat;
    match find_weapon rows name with
    | Some weapon =>
        Some (weapons ++
              [ {| ws_name := w_name weapon; ws_category := cat;
                   ws_damage := damage weapon; ws_damage_type := damage_type weapon;
                   ws_properties := properties weapon; ws_cost := w_cost weapon |} ])
    | None => Some weapons
    end
  else Some weapons.

Definition add_selected_gear (acc : list gear_item) (gear_id : string) : list gear_item :=
  match ADVENTURING_GEAR !! gear_id with
  | Some gear_item => acc ++ [gear_entry gear_item]
  | None => acc
  end.

Definition add_selected_special (key : string) (checked : bool) (selection : string)
    (options : gmap string gear_item) (acc : gmap string gear_item)
  : gmap string gear_item :=
  if checked && PyStr.truthy selection then
    match options !! selection with
    | Some item => <[key := gear_entry item]> acc
    | None => acc
    end
  else acc.

(** [EquipmentForm.selected_equipment] *)
Definition selected_equipment (self : EquipmentForm) : option equipment_t :=
  let r := data self in
  total ← calculate_total_cost self;
  sel_armor ←
    (if PyStr.truthy (armor r) then
       '(category, name) ← PyStr.split_pair (armor r);
       rows ← ARMOR !! category;
       match find_armor rows name with
       | Some (ArmorRow a) =>
           Some (Some {| a_name := a_name a; a_type := category; a_cost := a_cost a;
                         ac := ac a; add_dex := add_dex a; max_dex := max_dex a;
                         stealth_disadvantage := stealth_disadvantage a |})
       | Some (ShieldRow _) => None
       | None => Some None
       end
     else Some None);
  sel_shield ←
    (if PyStr.truthy (shield r) then
       '(category, name) ← PyStr.split_pair (shield r);
       rows ← ARMOR !! category;
       match find_armor rows name with
       | Some (ShieldRow s) =>
           Some (Some {| s_name := s_name s; s_cost := s_cost s; ac_bonus := ac_bonus s |})
       | Some (ArmorRow _) => None
       | None => Some None
       end
     else Some None);
  weapons ← foldl add_selected_weapon (Some [])
              (simple_melee r ++ simple_ranged r ++ martial_melee r ++ martial_ranged r);
  let gear := foldl add_selected_gear [] (adventuring_gear r) in
  let special := ∅ in
  let special :=
    add_selected_special "arcane_focus" (has_arcane_focus r) (arcane_focus_selection r)
      ARCANE_FOCUS_OPTIONS special in
  let special :=
    add_selected_special "holy_symbol" (has_holy_symbol r) (holy_symbol_selection r)
      HOLY_SYMBOL_OPTIONS special in
  let special :=
    add_selected_special "musical_instrument" (has_musical_instrument r)
      (musical_instrument_selection r) MUSICAL_INSTRUMENT_OPTIONS special in
  let special :=
    add_selected_special "tools" (has_tools r) (tool_selection r) TOOL_OPTIONS special in
  let special :=
    add_selected_special "ammunition" (has_ammunition r) (ammunition_selection r)
      AMMUNITION_OPTIONS special in
  Some {| e_armor := sel_armor; e_shield := sel_shield; e_weapons := weapons;
          e_adventuring_gear := gear; e_special_equipment := special;
          total_cost_gp := total; armor_class := None; unusable_items := None |}.

(** The proficiency checks of [step5_equipment], in the order the route
    makes them: armor, shield, then each weapon. *)
Definition armor_unusable (char_class : string) (equipment : equipment_t)
  : list unusable_item :=
  match e_armor equipment with
  | Some armor =>
      if negb (has_armor_proficiency char_class (a_type armor)) then
        [ {| u_item := a_name armor; u_type := "armor";
             u_reason := ("Not proficient with " ++ a_type armor ++ " armor")%string |} ]
      else []
  | None => []
  end.

Definition shield_unusable (char_class : string) (equipment : equipment_t)
  : list unusable_item :=
  match e_shield equipment with
  | Some shield =>
      if negb (has_armor_proficiency char_class "shields") then
        [ {| u_item := s_name shield; u_type := "shield";
             u_reason := "Not proficient with shields" |} ]
      else []
  | None => []
  end.

Definition weapon_unusable (char_class : string) (weapon : weapon_sel)
  : list unusable_item :=
  let weapon_category := ws_category weapon in
  if PyStr.startswith weapon_category "martial"
     && negb (has_weapon_proficiency char_class weapon_category) then
    [ {| u_item := ws_name weapon; u_type := "weapon";
         u_reason := "Not proficient with martial weapons" |} ]
  else [].

Definition check_proficiencies (char_class : string) (equipment : equipment_t)
  : list unusable_item :=
  armor_unusable char_class equipment ++ shield_unusable char_class equipment
    ++ (e_weapons equipment ≫= weapon_unusable char_class).

(** [equipment['armor_class'] = 10 + dex_mod; equipment['unusable_items'] = ...] *)
Definition annotate (equipment : equipment_t) (base_ac : Z)
    (unusable : list unusable_item) : equipment_t :=
  {| e_armor := e_armor equipment; e_shield := e_shield equipment;
     e_weapons := e_weapons equipment;
     e_adventuring_gear := e_adventuring_gear equipment;
     e_special_equipment := e_special_equipment equipment;
     total_cost_gp := total_cost_gp equipment;
     armor_class := Some base_ac; unusable_items := Some unusable |}.

(** ["; ".join(warnings)] *)
Fixpoint join (sep : string) (l : list string) : string :=
  match l with
  | [] => ""
  | [x] => x
  | x :: l' => (x ++ sep ++ join sep l')%string
  end.

Definition purchase_warnings (unusable : list unusable_item) : list message :=
  match unusable with
  | [] => []
  | _ =>
      [ Msg ("Warning: You purchased items you aren't proficient with: "
             ++ join "; " ((λ item, (u_item item ++ ": " ++ u_reason item)%string)
                           <$> unusable))%string ]
  end.

(** [request.method == "GET" and request.referrer and 'step4_skills' in request.referrer] *)
Definition from_skills_step (r : equipment_request) : bool :=
  bool_decide (e_method r = GET) &&
  match referrer r with
  | Some ref => PyStr.truthy ref && PyStr.contains "step4_skills" ref
  | None => false
  end.

(** The first part of [step5_equipment], up to and including
    ["Always reset coins when starting equipment step"]: the session it
    leaves and the budget read back from it. *)
Definition enter_equipment_step (session : gmap string value) (r : equipment_request)
    (char_class : string) : option (gmap string value * Z) :=
  let session :=
    if from_skills_step r
    then delete "equipment" (delete "coins_left" session) else session in
  starting_gp ← class_starting_gold !! char_class;
  let coins_left := Currency.coins 0 starting_gp 0 0 in
  let session := <["coins_left" := VInts coins_left]> session in
  let session := <["previous_class" := VStr char_class]> session in
  let budget_gp := default starting_gp (coins_left !! "gp") in
  Some (session, budget_gp).

Definition step5_equipment (session : gmap string value) (r : equipment_request)
  : option (gmap string value * response) :=
  match get_str session "class" with
  | None => Some (session, Redirect "characters.step3_class" [])
  | Some char_class =>
    if negb (PyStr.truthy char_class) then
      Some (session, Redirect "characters.step3_class" [])
    else
      '(session, budget_gp) ← enter_equipment_step session r char_class;
      let dex_mod := adjusted_mod session "dexterity" in
      let equipment := InitialEquipment (10 + dex_mod) in
      let initial_load :=
        RenderEquipment [] budget_gp (convert_gp_to_coins (f_of_int budget_gp))
          (f_of_int budget_gp) false NotShown in
      match e_method r with
      | GET => Some (session, initial_load)
      | POST =>
        form ← EquipmentForm_init r char_class budget_gp;
        if bool_decide (action r = Some "toggle_special")
           || bool_decide (action r = Some "update_spells") then
          Some (session,
                RenderEquipment [] budget_gp (convert_gp_to_coins (f_of_int budget_gp))
                  (f_of_int 0) false equipment)
        else
          '(is_valid, form) ← validate form;
          if (is_valid : bool) then
            total_cost_gp ← calculate_total_cost form;
            let remaining_gp := f_sub (f_of_int budget_gp) total_cost_gp in
            let remaining_coins := convert_gp_to_coins remaining_gp in
            let session := <["coins_left" := VInts remaining_coins]> session in
            selected ← selected_equipment form;
            let equipment :=
              annotate selected (10 + dex_mod) (check_proficiencies char_class selected) in
            if bool_decide (action r = Some "preview") then
              Some (session,
                    RenderEquipment [] budget_gp
                      (convert_gp_to_coins (remaining_funds form)) (remaining_funds form)
                      true (Resolved equipment))
            else if bool_decide (action r = Some "purchase") then
              if f_ge (remaining_funds form) (f_of_int 0) then
                total_cost ← calculate_total_cost form;
                let remaining_gp := f_sub (f_of_int budget_gp) total_cost in
                let remaining_coins := convert_gp_to_coins remaining_gp in
                let session := <["equipment" := VEquipment equipment]> session in
                let session := <["coins_left" := VInts remaining_coins]> session in
                Some (session,
                      Redirect "characters.character_name"
                        (purchase_warnings (check_proficiencies char_class selected)))
              else
                Some (session,
                      RenderEquipment [Msg "You don't have enough funds for this purchase."]
                        budget_gp (convert_gp_to_coins (remaining_funds form))
                        (remaining_funds form) false (Resolved equipment))
            else Some (session, initial_load)
          else
            Some (session,
                  RenderEquipment (validation_errors form) budget_gp
                    (convert_gp_to_coins (remaining_funds form)) (remaining_funds form)
                    false equipment)
      end
  end.

End Routes.

(** ** Concrete sessions and requests

    The inputs at which the theorems of part II are instantiated, with
    exact arithmetic for the gold amounts. *)

Module Examples.
Import Data ExactFloat.

(** A submitted equipment form with the given action, armor, shield and
    weapons, and nothing else selected. *)
Definition submit (act armor shield : string) (simple_melee martial_melee : list string)
  : equipment_request :=
  {| e_method := POST; referrer := None; action := Some act; e_wtf_valid := true;
     armor := armor; shield := shield;
     simple_melee := simple_melee; simple_ranged := [];
     martial_melee := martial_melee; martial_ranged := [];
     adventuring_gear := [];
     has_tools := false; tool_selection := "";
     has_musical_instrument := false; musical_instrument_selection := "";
     has_arcane_focus := false; arcane_focus_selection := "";
     has_holy_symbol := false; holy_symbol_selection := "";
     has_ammunition := false; ammunition_selection := "";
     has_spell_scroll := false; spell_scroll_level := Some "0";
     spell_scroll_class := Some "wizard" |}.


(** A Wizard with dexterity 14 who has opened the equipment page once: the
    full 55 gp are stored. *)
Definition wizard_session : gmap string (@value Q) :=
  {[ "class" := VStr "Wizard";
     "adjusted_stats" := VInts {[ "dexterity" := 14; "constitution" := 8 ]};
     "constitution_modifier" := VInt (-1);
     "coins_left" := VInts (Currency.coins 0 55 0 0) ]}.

(** A Rogue who has chosen skills and expertise, about to choose a class
    again. *)
Definition rogue_session : gmap string (@value Q) :=
  {[ "class" := VStr "Rogue";
     "constitution_modifier" := VInt (-1);
     "skill_proficiencies" := VStrs ["Stealth"; "Insight"; "Acrobatics"; "Deception"];
     "expertise" := VStrs ["Stealth"; "Insight"] ]}.

Definition choose_class (cls : string) : class_request :=
  {| c_method := POST; c_wtf_valid := true; class_choice := cls;
     primary_ability := None |}.


(** What a purchase of one dagger resolves to for that Wizard. *)
Definition dagger_bought : @equipment_t Q :=
  {| e_armor := None; e_shield := None;
     e_weapons :=
       [ {| ws_name := "Dagger"; ws_category := "simple_melee"; ws_damage := "1d4";
            ws_damage_type := "piercing";
            ws_properties := ["finesse"; "light"; "thrown"];
            ws_cost := {[ "gp" := 2 ]} |} ];
     e_adventuring_gear := []; e_special_equipment := ∅;
     total_cost_gp := 2%Q; armor_class := Some 12; unusable_items := Some [] |}.


End Examples.

(* ===================================================================== *)
(** * Part II: theorems *)
(* ===================================================================== *)

Section CurrencyFacts.
Import Currency.

Lemma COIN_VALUES_lookups :
  COIN_VALUES !! "pp" = Some 500 ∧ COIN_VALUES !! "gp" = Some 100 ∧
  COIN_VALUES !! "sp" = Some 10 ∧ COIN_VALUES !! "cp" = Some 1.
Proof. by vm_compute. Qed.

Lemma add_coin_comm (j1 j2 : string) (z1 z2 : Z) (y : option Z) :
  add_coin j1 z1 (add_coin j2 z2 y) = add_coin j2 z2 (add_coin j1 z1 y).
Proof.
  unfold add_coin. destruct y as [t|]; simpl; [|done].
  destruct (COIN_VALUES !! j1) as [v1|], (COIN_VALUES !! j2) as [v2|]; simpl; try done.
  f_equal. lia.
Qed.

Lemma coins_to_cp_insert (d : string) (n : Z) (m : gmap string Z) :
  m !! d = None →
  coins_to_cp (<[d := n]> m) = add_coin d n (coins_to_cp m).
Proof.
  intros Hd. unfold coins_to_cp.
  apply (map_fold_insert_L add_coin); [|done].
  intros. apply add_coin_comm.
Qed.

(** What [coins_to_cp] computes on a full four-key breakdown: platinum
    counts for 500 copper. *)
Lemma coins_to_cp_coins (p g s c : Z) :
  coins_to_cp (coins p g s c) = Some (500 * p + 100 * g + 10 * s + c).
Proof.
  unfold coins. rewrite <-insert_empty.
  rewrite !coins_to_cp_insert by (by simplify_map_eq).
  unfold coins_to_cp. rewrite map_fold_empty. unfold add_coin.
  destruct COIN_VALUES_lookups as (-> & -> & -> & ->). simpl.
  f_equal. lia.
Qed.

Lemma cp_to_coins_eq (t : Z) :
  cp_to_coins t =
  Some (coins (t `div` 500) ((t `mod` 500) `div` 100)
              (((t `mod` 500) `mod` 100) `div` 10)
              (((t `mod` 500) `mod` 100) `mod` 10)).
Proof.
  unfold cp_to_coins, coins, cp_to_coins_step. simpl.
  destruct COIN_VALUES_lookups as (-> & -> & -> & ->). simpl.
  rewrite Z.div_1_r. reflexivity.
Qed.

Lemma get_cost_in_cp_coins (p g s c : Z) :
  get_cost_in_cp (coins p g s c) = 1000 * p + 100 * g + 10 * s + c.
Proof. unfold get_cost_in_cp, get0, coins. simplify_map_eq. lia. Qed.

Lemma convert_to_coins_eq (t : Z) :
  convert_to_coins t =
  coins (t `div` 1000) ((t `mod` 1000) `div` 100)
        (((t `mod` 1000) `mod` 100) `div` 10) (((t `mod` 1000) `mod` 100) `mod` 10).
Proof. reflexivity. Qed.

(** A copper total survives [cp_to_coins] then [coins_to_cp]: both use the
    same table. *)
Lemma coins_to_cp_cp_to_coins (t : Z) :
  cp_to_coins t ≫= coins_to_cp = Some t.
Proof.
  rewrite cp_to_coins_eq. simpl. rewrite coins_to_cp_coins. f_equal.
  pose proof (Z.div_mod t 500). pose proof (Z.div_mod (t `mod` 500) 100).
  pose proof (Z.div_mod ((t `mod` 500) `mod` 100) 10). lia.
Qed.

(** The same for the pair of utils/currency_utils.py. *)
Lemma get_cost_in_cp_convert_to_coins (t : Z) :
  get_cost_in_cp (convert_to_coins t) = t.
Proof.
  rewrite convert_to_coins_eq, get_cost_in_cp_coins.
  pose proof (Z.div_mod t 1000). pose proof (Z.div_mod (t `mod` 1000) 100).
  pose proof (Z.div_mod ((t `mod` 1000) `mod` 100) 10). lia.
Qed.

(** A breakdown with fewer than ten gold, silver and copper coins survives
    [get_cost_in_cp] then [convert_to_coins], which count platinum as 1000
    copper. *)
Lemma convert_to_coins_get_cost_in_cp (p g s c : Z) :
  0 ≤ g < 10 → 0 ≤ s < 10 → 0 ≤ c < 10 →
  convert_to_coins (get_cost_in_cp (coins p g s c)) = coins p g s c.
Proof.
  intros Hg Hs Hc. rewrite get_cost_in_cp_coins, convert_to_coins_eq.
  set (t := 1000 * p + 100 * g + 10 * s + c).
  assert (t `div` 1000 = p) as -> by (symmetry; apply (Z.div_unique t 1000 p (100 * g + 10 * s + c)); lia).
  assert (t `mod` 1000 = 100 * g + 10 * s + c) as ->
    by (symmetry; apply (Z.mod_unique t 1000 p); lia).
  assert ((100 * g + 10 * s + c) `div` 100 = g) as ->
    by (symmetry; apply (Z.div_unique _ 100 g (10 * s + c)); lia).
  assert ((100 * g + 10 * s + c) `mod` 100 = 10 * s + c) as ->
    by (symmetry; apply (Z.mod_unique _ 100 g); lia).
  assert ((10 * s + c) `div` 10 = s) as ->
    by (symmetry; apply (Z.div_unique _ 10 s c); lia).
  assert ((10 * s + c) `mod` 10 = c) as ->
    by (symmetry; apply (Z.mod_unique _ 10 s); lia).
  reflexivity.
Qed.

(** With [COIN_VALUES] as it is, [cp_to_coins] after [coins_to_cp] gives the
    breakdown back only below five gold coins. *)
Lemma cp_to_coins_coins_to_cp (p g s c : Z) :
  0 ≤ g < 5 → 0 ≤ s < 10 → 0 ≤ c < 10 →
  coins_to_cp (coins p g s c) ≫= cp_to_coins = Some (coins p g s c).
Proof.
  intros Hg Hs Hc. rewrite coins_to_cp_coins. simpl. rewrite cp_to_coins_eq.
  set (t := 500 * p + 100 * g + 10 * s + c).
  assert (t `div` 500 = p) as -> by (symmetry; apply (Z.div_unique t 500 p (100 * g + 10 * s + c)); lia).
  assert (t `mod` 500 = 100 * g + 10 * s + c) as ->
    by (symmetry; apply (Z.mod_unique t 500 p); lia).
  assert ((100 * g + 10 * s + c) `div` 100 = g) as ->
    by (symmetry; apply (Z.div_unique _ 100 g (10 * s + c)); lia).
  assert ((100 * g + 10 * s + c) `mod` 100 = 10 * s + c) as ->
    by (symmetry; apply (Z.mod_unique _ 100 g); lia).
  assert ((10 * s + c) `div` 10 = s) as ->
    by (symmetry; apply (Z.div_unique _ 10 s c); lia).
  assert ((10 * s + c) `mod` 10 = c) as ->
    by (symmetry; apply (Z.mod_unique _ 10 s); lia).
  reflexivity.
Qed.

(** C2 (the code departs from the claim): the claim has every conversion
    value one platinum piece at 1000 copper.  [get_cost_in_cp] does, but
    [coins_to_cp] reads [COIN_VALUES], where ["pp"] is 500: one platinum
    piece converts to 500 copper. *)
Theorem C2_coins_to_cp_platinum_is_500 :
  coins_to_cp (coins 1 0 0 0) = Some 500 ∧
  get_cost_in_cp (coins 1 0 0 0) = 1000.
Proof. split; [apply coins_to_cp_coins | apply get_cost_in_cp_coins]. Qed.

(** C3 (the code departs from the claim): five gold pieces, a breakdown
    with fewer than ten coins of each lower denomination, do not survive
    [coins_to_cp] then [cp_to_coins]: they total 500 copper, which
    [cp_to_coins] returns as one platinum piece. *)
Theorem C3_five_gold_round_trip_fails :
  coins_to_cp (coins 0 5 0 0) = Some 500 ∧
  cp_to_coins 500 = Some (coins 1 0 0 0) ∧
  coins 1 0 0 0 ≠ coins 0 5 0 0.
Proof.
  split; [apply coins_to_cp_coins|]. split; [by rewrite cp_to_coins_eq|].
  intros Heq. apply (f_equal (.!! "gp")) in Heq. by vm_compute in Heq.
Qed.

End CurrencyFacts.

(** ** Armor class *)

Section ArmorFacts.
Import Data ArmorUtils.

(** With armor, [calculate_ac] is the armor's AC, plus the dexterity
    modifier (capped at [max_dex] when that is a number) when [add_dex]
    holds, plus the shield's bonus when a shield is given. *)
Lemma calculate_ac_armored (armor : armor_item) (shield : option shield_item) (dex : Z) :
  calculate_ac (Some armor) shield dex =
  ac armor
  + (if add_dex armor
     then match max_dex armor with Some cap => Z.min dex cap | None => dex end
     else 0)
  + match shield with Some sh => ac_bonus sh | None => 0 end.
Proof.
  unfold calculate_ac. destruct (add_dex armor), (max_dex armor), shield; lia.
Qed.

Lemma calculate_ac_unarmored (dex : Z) :
  calculate_ac None None dex = 10 + dex.
Proof. reflexivity. Qed.

(** C8 (the code departs from the claim): the claim adds the shield's bonus
    on top of the unarmored value too.  [calculate_ac] returns [10 + dex]
    as soon as there is no armor, before it looks at the shield: an
    unarmored character with the catalog's shield (+2) and dexterity
    modifier 1 gets 11, not 13. *)
Theorem C8_shield_ignored_without_armor :
  (∀ (shield : shield_item) (dex : Z),
      calculate_ac None (Some shield) dex = 10 + dex) ∧
  calculate_ac None
    (Some {| s_name := "Shield"; s_cost := {[ "gp" := 10 ]}; ac_bonus := 2 |}) 1 = 11.
Proof. split; reflexivity. Qed.

End ArmorFacts.

(** ** Ability-score rolls *)

Section DiceFacts.
Import Dice.

(** The dice that are kept: those showing more than 2. *)
Local Abbreviation kept src := (filter (λ r : Z, 2 < r) src).

Lemma reroll_kept (src : list Z) (roll v : Z) (rest : list Z) :
  reroll src roll = Some (v, rest) →
  kept (roll :: src) = v :: kept rest.
Proof.
  revert roll. induction src as [|r src IH]; intros roll; simpl.
  - destruct (Z.leb_spec roll 2); [done|].
    intros [= <- <-]. rewrite filter_cons_True by lia. done.
  - destruct (Z.leb_spec roll 2).
    + intros Hr. apply IH in Hr. 
      rewrite filter_cons_False by lia. done.
    + intros [= <- <-]. rewrite (filter_cons_True _ roll) by lia. done.
Qed.

Lemma roll_die_kept (src : list Z) (v : Z) (rest : list Z) :
  roll_die src = Some (v, rest) → kept src = v :: kept rest.
Proof. destruct src as [|r src]; [done|]. apply reroll_kept. Qed.

Lemma roll_dice_kept (n : nat) (rolls src rolls' rest : list Z) :
  roll_dice n rolls src = Some (rolls', rest) →
  ∃ new, rolls' = rolls ++ new ∧ length new = n ∧ kept src = new ++ kept rest.
Proof.
  revert rolls src. induction n as [|n IH]; intros rolls src; simpl.
  - intros [= <- <-]. exists []. by rewrite app_nil_r.
  - destruct (roll_die src) as [[v src']|] eqn:Hdie; simpl; [|done].
    intros Hrec. apply IH in Hrec as (new & -> & Hlen & Hkept).
    apply roll_die_kept in Hdie.
    exists (v :: new). rewrite <-app_assoc. simpl. split; [done|].
    split; [by rewrite Hlen|]. by rewrite Hdie, Hkept.
Qed.

(** Enough dice above 2 in the source and the roll returns. *)
Lemma reroll_returns (src : list Z) (roll : Z) :
  (1 ≤ length (kept (roll :: src)))%nat → is_Some (reroll src roll).
Proof.
  revert roll. induction src as [|r src IH]; intros roll; simpl;
    destruct (Z.leb_spec roll 2); eauto.
  - rewrite filter_cons_False by lia. simpl. lia.
  - rewrite filter_cons_False by lia. apply IH.
Qed.

Lemma roll_dice_returns (n : nat) (rolls src : list Z) :
  (n ≤ length (kept src))%nat → is_Some (roll_dice n rolls src).
Proof.
  revert rolls src. induction n as [|n IH]; intros rolls src Hn; simpl; [eauto|].
  destruct src as [|r src]; [simpl in Hn; lia|].
  destruct (reroll_returns src r) as [[v src'] Hv]; [lia|].
  simpl. rewrite Hv. simpl. apply IH.
  apply reroll_kept in Hv. rewrite Hv in Hn. simpl in Hn. lia.
Qed.

(** Dropping the first of four sorted dice leaves their sum less the
    smallest. *)
Lemma sum_drop_sorted_four (d1 d2 d3 d4 : Z) :
  sum (drop 1 (sorted [d1; d2; d3; d4])) =
  d1 + d2 + d3 + d4 - Z.min (Z.min d1 d2) (Z.min d3 d4).
Proof.
  unfold sorted, sum. simpl.
  repeat match goal with
         | |- context [(?a <=? ?b)%Z] => destruct (Z.leb_spec a b); simpl
         end; lia.
Qed.

(** C9: whatever the dice source holds (values 1 to 6), a score that
    [roll_stat] returns is the sum of the three highest of the first four
    dice showing at least 3, and so lies between 9 and 18; and [roll_stat]
    does return once the source holds four such dice. *)
Theorem C9_roll_stat_range (src : list Z) :
  Forall (λ r, 1 ≤ r ≤ 6) src →
  ((4 ≤ length (kept src))%nat → is_Some (roll_stat src)) ∧
  (∀ (score : Z) (rest : list Z),
      roll_stat src = Some (score, rest) →
      ∃ d1 d2 d3 d4,
        take 4 (kept src) = [d1; d2; d3; d4] ∧
        Forall (λ d, 3 ≤ d ≤ 6) [d1; d2; d3; d4] ∧
        score = d1 + d2 + d3 + d4 - Z.min (Z.min d1 d2) (Z.min d3 d4) ∧
        9 ≤ score ≤ 18).
Proof.
  intros Hsrc. split.
  - intros Hlen. unfold roll_stat.
    destruct (roll_dice_returns 4 [] src Hlen) as [[rolls src'] ->]. simpl. eauto.
  - intros score rest. unfold roll_stat.
    destruct (roll_dice 4 [] src) as [[rolls src']|] eqn:Hdice; simpl; [|done].
    intros [= <- <-].
    apply roll_dice_kept in Hdice as (new & -> & Hlen & Hkept). simpl.
    destruct new as [|d1 [|d2 [|d3 [|d4 [|? ?]]]]]; simpl in Hlen; try lia.
    exists d1, d2, d3, d4.
    assert (Forall (λ d, 3 ≤ d ≤ 6) [d1; d2; d3; d4]) as Hdice.
    { assert (Forall (λ d, 3 ≤ d ≤ 6) (kept src)) as Hall.
      { apply Forall_forall. intros d Hd.
        apply list_elem_of_filter in Hd as [Hgt Hin].
        rewrite Forall_forall in Hsrc. specialize (Hsrc d Hin). lia. }
      rewrite Hkept in Hall. by apply Forall_app in Hall as [Hall _]. }
    split; [by rewrite Hkept|]. split; [done|].
    rewrite sum_drop_sorted_four. split; [done|].
    inversion Hdice as [|? ? H1 Hd2]; subst.
    inversion Hd2 as [|? ? H2 Hd3]; subst.
    inversion Hd3 as [|? ? H3 Hd4]; subst.
    inversion Hd4 as [|? ? H4 _]; subst. lia.
Qed.

Lemma C9_roll_stat_range_witness :
  Forall (λ r, 1 ≤ r ≤ 6) [1; 5; 2; 2; 3; 6; 4; 1] ∧
  roll_stat [1; 5; 2; 2; 3; 6; 4; 1] = Some (15, [1]) ∧
  9 ≤ 15 ≤ 18.
Proof.
  assert (Forall (λ r, 1 ≤ r ≤ 6) [1; 5; 2; 2; 3; 6; 4; 1]) as Hsrc
    by (repeat constructor; lia).
  split; [exact Hsrc|]. split; [reflexivity|].
  destruct (C9_roll_stat_range _ Hsrc) as [_ Hscore].
  destruct (Hscore 15 [1] eq_refl) as (? & ? & ? & ? & _ & _ & _ & Hrange).
  exact Hrange.
Defined.

End DiceFacts.

(** ** The routes *)

Section RouteFacts.
Context {F : Type} `{PyFloat F}.
Import Data.

(** The session, holding gold amounts of type [F]. *)
Local Abbreviation session_t := (gmap string (@value F)).

(** *** Skill selection *)

Lemma check_expertise_passed (expertise skills : list string) :
  check_expertise expertise skills = Passed ↔ ∀ e, e ∈ expertise → e ∈ skills.
Proof.
  induction expertise as [|x expertise IH]; simpl.
  - split; [|done]. intros _ e He. by apply elem_of_nil in He.
  - case_bool_decide as Hx.
    + split; [done|]. intros Hall. exfalso. apply Hx, Hall. by left.
    + rewrite IH. split.
      * intros Hall e He. apply elem_of_cons in He as [->|He]; [|by apply Hall].
        by destruct (decide (x ∈ skills)).
      * intros Hall e He. apply Hall. by right.
Qed.

Lemma check_expertise_error (expertise skills : list string) :
  check_expertise expertise skills = Passed ∨
  check_expertise expertise skills =
    ValidationError "You can only choose Expertise in skills you're proficient with.".
Proof.
  induction expertise as [|x expertise IH]; simpl; [by left|].
  case_bool_decide; [by right|done].
Qed.

Lemma SkillsForm_errors_nil (self : SkillsForm) :
  SkillsForm_errors self = [] ↔
  validate_skills self = Passed ∧ validate_expertise self = Passed.
Proof.
  unfold SkillsForm_errors.
  destruct (validate_skills self), (validate_expertise self); simpl;
    split; try done; by intros [? ?].
Qed.

(** C7: the skills form passes its validators exactly when the number of
    submitted skills is the class's (2 for Cleric and Wizard, 4 for Rogue)
    and, for Rogue, exactly 2 expertise skills are submitted, each among the
    submitted skills; each violation raises a [ValidationError]. *)
Theorem C7_skills_form_accepts (cls : string) (skills expertise : list string) :
  let form := SkillsForm_init (Some cls) skills expertise in
  (cls = "Cleric" ∨ cls = "Wizard" →
     (SkillsForm_errors form = [] ↔ length skills = 2%nat)) ∧
  (cls = "Rogue" →
     (SkillsForm_errors form = [] ↔
        length skills = 4%nat ∧ length expertise = 2%nat ∧
        ∀ e, e ∈ expertise → e ∈ skills)) ∧
  (Z.of_nat (length skills) ≠ skills_required form →
     ∃ text, validate_skills form = ValidationError text) ∧
  (cls = "Rogue" → length expertise ≠ 2%nat →
     validate_expertise form =
       ValidationError "Rogues must choose exactly 2 skills for Expertise.") ∧
  (cls = "Rogue" → length expertise = 2%nat →
     (∃ e, e ∈ expertise ∧ e ∉ skills) →
     validate_expertise form =
       ValidationError "You can only choose Expertise in skills you're proficient with.").
Proof.
  intros form.
  assert (validate_skills form = Passed ↔
          Z.of_nat (length skills) = skills_required form) as Hskills.
  { unfold validate_skills. repeat case_bool_decide; naive_solver. }
  assert (cls = "Rogue" →
          (validate_expertise form = Passed ↔
           length expertise = 2%nat ∧ ∀ e, e ∈ expertise → e ∈ skills)) as Hrogue.
  { intros ->. unfold validate_expertise, form, SkillsForm_init; simpl.
    case_bool_decide as Hlen.
    - split; [done|]. by intros [? _].
    - rewrite check_expertise_passed. split; [|by intros [_ ?]].
      intros Hsub. split; [|done]. by destruct (decide (length expertise = 2%nat)). }
  split; [|split; [|split; [|split]]].
  - intros Hcls. rewrite SkillsForm_errors_nil, Hskills.
    assert (validate_expertise form = Passed) as ->.
    { unfold validate_expertise, form, SkillsForm_init; simpl.
      rewrite bool_decide_eq_false_2; [done|]. intros [= ->]. by destruct Hcls. }
    unfold form, SkillsForm_init; simpl.
    rewrite bool_decide_eq_false_2 by (intros [= ->]; by destruct Hcls).
    split; [intros [? _]; lia|]. intros ?. split; [lia|done].
  - intros Hcls. rewrite SkillsForm_errors_nil, Hskills, (Hrogue Hcls). subst cls.
    unfold form, SkillsForm_init; simpl.
    split; [intros [? [? ?]]|intros [? [? ?]]]; (split; [lia|done]).
  - intros Hne. unfold validate_skills. rewrite bool_decide_eq_true_2 by done.
    case_bool_decide; eauto.
  - intros -> Hne. unfold validate_expertise, form, SkillsForm_init; simpl.
    by rewrite bool_decide_eq_true_2.
  - intros -> Hlen (e & He & Hnot). unfold validate_expertise, form, SkillsForm_init; simpl.
    rewrite bool_decide_eq_false_2 by (intros Hne; by apply Hne).
    destruct (check_expertise_error expertise skills) as [Hp|Hp]; [|done].
    exfalso. apply Hnot. by apply (proj1 (check_expertise_passed _ _) Hp).
Qed.

(** *** Spell selection *)


(** *** Choosing a class *)

(** The session after the common part of [step3_class]: class stored,
    expertise and leftovers cleared, hit points set. *)
Lemma step3_cleared (hp : Z) (cls : string) (session : session_t) :
  let base := set_hp hp (clear_leftovers (clear_expertise cls (<["class" := VStr cls]> session))) in
  base !! "class" = Some (VStr cls) ∧
  base !! "equipment" = None ∧
  base !! "coins_left" = None ∧
  base !! "skill_proficiencies" = None ∧
  base !! "fighting_style" = None ∧
  base !! "cantrips" = None ∧
  base !! "level1_spells" = None ∧
  (cls ≠ "Rogue" → base !! "expertise" = Some (VStrs [])) ∧
  (cls = "Rogue" → base !! "expertise" = session !! "expertise") ∧
  base !! "max_hp" = Some (VInt hp) ∧
  base !! "current_hp" = Some (VInt hp).
Proof.
  unfold set_hp, clear_leftovers, clear_expertise. cbv zeta.
  repeat split.
  - rewrite !lookup_insert_ne, !lookup_delete_ne by done.
    case_bool_decide; rewrite ?lookup_insert_ne by done; apply lookup_insert_eq.
  - rewrite !lookup_insert_ne, !lookup_delete_ne by done. apply lookup_delete_eq.
  - rewrite !lookup_insert_ne, !lookup_delete_ne by done. apply lookup_delete_eq.
  - rewrite !lookup_insert_ne, !lookup_delete_ne by done. apply lookup_delete_eq.
  - rewrite !lookup_insert_ne, !lookup_delete_ne by done. apply lookup_delete_eq.
  - rewrite !lookup_insert_ne, !lookup_delete_ne by done. apply lookup_delete_eq.
  - rewrite !lookup_insert_ne by done. apply lookup_delete_eq.
  - intros Hne. rewrite !lookup_insert_ne, !lookup_delete_ne by done.
    rewrite bool_decide_eq_true_2 by done. apply lookup_insert_eq.
  - intros ->. rewrite !lookup_insert_ne, !lookup_delete_ne by done.
    rewrite bool_decide_eq_false_2 by (intros Hne; by apply Hne).
    by rewrite lookup_insert_ne.
  - rewrite lookup_insert_ne by done. apply lookup_insert_eq.
  - apply lookup_insert_eq.
Qed.

Lemma step3_constitution (cls : string) (session : session_t) :
  get_int (clear_leftovers (clear_expertise cls (<["class" := VStr cls]> session)))
    "constitution_modifier"
  = get_int session "constitution_modifier".
Proof.
  unfold get_int, clear_leftovers, clear_expertise. cbv zeta.
  rewrite !lookup_delete_ne by done.
  case_bool_decide; by rewrite ?lookup_insert_ne by done.
Qed.

(** C5, as amended: choosing any of the four classes removes the stored
    equipment, remaining funds, skill proficiencies, fighting style,
    cantrips and first-level spells; it empties the stored expertise unless
    the class is Rogue, for which the stored expertise stays as it was; max
    HP becomes hit die + constitution modifier (0 when none is stored), with
    no floor, and current HP the same value. *)
Theorem C5_step3_class_effect (session : session_t) (r : class_request)
    (cls : string) :
  c_method r = POST → c_wtf_valid r = true → class_choice r = cls →
  cls ∈ ["Fighter"; "Wizard"; "Rogue"; "Cleric"] →
  ∃ (session' : session_t) resp hit_die,
    step3_class session r = Some (session', resp) ∧
    CLASS_HIT_DIE !! cls = Some hit_die ∧
    session' !! "class" = Some (VStr cls) ∧
    session' !! "equipment" = None ∧
    session' !! "coins_left" = None ∧
    session' !! "skill_proficiencies" = None ∧
    session' !! "fighting_style" = None ∧
    session' !! "cantrips" = None ∧
    session' !! "level1_spells" = None ∧
    (cls ≠ "Rogue" → session' !! "expertise" = Some (VStrs [])) ∧
    (cls = "Rogue" → session' !! "expertise" = session !! "expertise") ∧
    session' !! "max_hp" =
      Some (VInt (hit_die + default 0 (get_int session "constitution_modifier"))) ∧
    session' !! "current_hp" = session' !! "max_hp".
Proof.
  intros Hpost Hvalid Hchoice Hcls. unfold step3_class.
  rewrite Hpost, Hvalid, Hchoice.
  rewrite (bool_decide_eq_true_2 (POST = POST)) by done. cbn [andb].
  assert (∃ hit_die, CLASS_HIT_DIE !! cls = Some hit_die) as [hit_die Hdie].
  { repeat (apply elem_of_cons in Hcls as [-> | Hcls]);
      [eexists; vm_compute; reflexivity ..|by apply elem_of_nil in Hcls]. }
  rewrite Hdie. cbn [mbind option_bind]. rewrite step3_constitution.
  set (hp := hit_die + default 0 (get_int session "constitution_modifier")).
  destruct (step3_cleared hp cls session)
    as (Hclass & Heq & Hcoins & Hskills & Hstyle & Hcan & Hlvl & Hexp & Hrogue & Hmax & Hcur).
  case_bool_decide.
  - destruct (primary_ability r) as [ability|]; [destruct (PyStr.truthy ability)|];
      do 3 eexists; (split; [reflexivity|]); rewrite ?lookup_insert_ne by done;
      rewrite Hmax; done.
  - do 3 eexists. split; [reflexivity|].
    rewrite lookup_delete_eq. rewrite !lookup_delete_ne, !lookup_insert_ne by done.
    rewrite Hmax. done.
Qed.


(** *** The equipment step *)

Lemma class_starting_gold_truthy (cls : string) (gold : Z) :
  class_starting_gold !! cls = Some gold → PyStr.truthy cls = true.
Proof. destruct cls; [by vm_compute|done]. Qed.

(** The session as the equipment step leaves it before it looks at the
    submitted form. *)
Lemma enter_equipment_step_eq (session : session_t) (r : equipment_request)
    (cls : string) (gold : Z) :
  class_starting_gold !! cls = Some gold →
  enter_equipment_step session r cls =
  Some (<["previous_class" := VStr cls]>
          (<["coins_left" := VInts (Currency.coins 0 gold 0 0)]>
             (if from_skills_step r
              then delete "equipment" (delete "coins_left" session) else session)),
        gold).
Proof.
  intros Hgold. unfold enter_equipment_step. rewrite Hgold. cbn [mbind option_bind].
  unfold Currency.coins. by rewrite lookup_insert_ne, lookup_insert_eq.
Qed.



(** **** The form *)

Lemma EquipmentForm_init_eq (r : equipment_request) (cls : string) (gold : Z)
    (form : EquipmentForm) :
  EquipmentForm_init r cls gold = Some form →
  form = {| data := r; form_class := cls; budget := gold;
            remaining_funds := f_of_int 0; total_cost := f_of_int 0;
            validation_errors := [] |}.
Proof.
  unfold EquipmentForm_init. destruct (_setup_choices r); [|done]. by intros [= <-].
Qed.

(** The cost and the resolved equipment are read off the bound data only. *)
Lemma calculate_total_cost_data (a b : EquipmentForm) :
  data a = data b → calculate_total_cost a = calculate_total_cost b.
Proof. unfold calculate_total_cost. by intros ->. Qed.

Lemma selected_equipment_data (a b : EquipmentForm) :
  data a = data b → selected_equipment a = selected_equipment b.
Proof. unfold selected_equipment, calculate_total_cost. by intros ->. Qed.

(** What a verdict of [validate] says about the form. *)
Lemma validate_cases (form : EquipmentForm) (verdict : bool) (form' : EquipmentForm) :
  validate form = Some (verdict, form') →
  data form' = data form ∧ form_class form' = form_class form ∧
  budget form' = budget form ∧
  (verdict = true →
     ∃ total,
       e_wtf_valid (data form) = true ∧
       calculate_total_cost form = Some total ∧
       f_gt total (f_of_int (budget form)) = false ∧
       armor_check form = None ∧ class_restriction form = None ∧
       remaining_funds form' = f_sub (f_of_int (budget form)) total ∧
       validation_errors form' = validation_errors form) ∧
  (verdict = false →
     ∃ e, validation_errors form' = validation_errors form ++ [e] ∧
       (e_wtf_valid (data form) = false ∧ remaining_funds form' = remaining_funds form ∨
        ∃ total,
          e_wtf_valid (data form) = true ∧
          calculate_total_cost form = Some total ∧
          remaining_funds form' = f_sub (f_of_int (budget form)) total ∧
          (f_gt total (f_of_int (budget form)) = true ∧
             e = MsgCostExceedsBudget total (f_of_int (budget form)) ∨
           f_gt total (f_of_int (budget form)) = false ∧
             (armor_check form = Some e ∨
              armor_check form = None ∧ class_restriction form = Some e)))).
Proof.
  unfold validate.
  destruct (e_wtf_valid (data form)) eqn:Hwtf; cbn [negb].
  2:{ intros [= <- <-]. repeat split; [done|]. intros _. eexists. split; [done|]. by left. }
  destruct (calculate_total_cost form) as [total|] eqn:Htotal; [|done].
  cbn [mbind option_bind].
  destruct (f_gt total (f_of_int (budget form))) eqn:Hgt.
  { intros [= <- <-]. repeat split; [done|]. intros _. eexists. split; [done|].
    right. exists total. repeat split; try done. by left. }
  change (armor_check (set_costs form (f_sub (f_of_int (budget form)) total) total))
    with (armor_check form).
  destruct (armor_check form) as [e|] eqn:Harmor.
  { intros [= <- <-]. repeat split; [done|]. intros _. exists e. split; [done|].
    right. exists total. repeat split; try done. right. split; [done|]. by left. }
  change (class_restriction (set_costs form (f_sub (f_of_int (budget form)) total) total))
    with (class_restriction form).
  destruct (class_restriction form) as [e|] eqn:Hclass.
  { intros [= <- <-]. repeat split; [done|]. intros _. exists e. split; [done|].
    right. exists total. repeat split; try done. right. split; [done|]. by right. }
  rewrite andb_false_r. intros [= <- <-]. repeat split; [|done].
  intros _. exists total. by repeat split.
Qed.

(** **** The route on a submitted form *)

Lemma from_skills_step_post (r : equipment_request) :
  e_method r = POST → from_skills_step r = false.
Proof. unfold from_skills_step. by intros ->. Qed.

Lemma adjusted_mod_entered (session : session_t) (cls ability : string) (coins : gmap string Z) :
  adjusted_mod (<["previous_class" := VStr cls]> (<["coins_left" := VInts coins]> session))
    ability
  = adjusted_mod session ability.
Proof. unfold adjusted_mod, get_ints. by rewrite !lookup_insert_ne. Qed.

(** Every outcome of a POST that is neither of the two re-rendering
    actions: the form is built and validated; a rejected form leaves the
    session as the reset left it; an accepted form has its remaining funds
    stored, and its equipment stored only by a purchase with non-negative
    remaining funds. *)
Lemma step5_post_outcome (session : session_t) (r : equipment_request)
    (cls : string) (gold : Z) (session' : session_t) (resp : response) :
  get_str session "class" = Some cls →
  class_starting_gold !! cls = Some gold →
  e_method r = POST →
  action r ≠ Some "toggle_special" → action r ≠ Some "update_spells" →
  step5_equipment session r = Some (session', resp) →
  let entered : session_t :=
    <["previous_class" := VStr cls]>
      (<["coins_left" := VInts (Currency.coins 0 gold 0 0)]> session) in
  let base_ac := 10 + adjusted_mod session "dexterity" in
  ∃ form verdict form',
    EquipmentForm_init r cls gold = Some form ∧
    validate form = Some (verdict, form') ∧
    (verdict = false →
       session' = entered ∧
       resp = RenderEquipment (validation_errors form') gold
                (convert_gp_to_coins (remaining_funds form')) (remaining_funds form')
                false (InitialEquipment base_ac)) ∧
    (verdict = true →
       ∃ total selected,
         calculate_total_cost form = Some total ∧
         selected_equipment form = Some selected ∧
         let remaining := f_sub (f_of_int gold) total in
         let remaining_coins := convert_gp_to_coins remaining in
         let equipment := annotate selected base_ac (check_proficiencies cls selected) in
         remaining_funds form' = remaining ∧
         if bool_decide (action r = Some "preview") then
           session' = <["coins_left" := VInts remaining_coins]> entered ∧
           resp = RenderEquipment [] gold remaining_coins remaining true (Resolved equipment)
         else if bool_decide (action r = Some "purchase") then
           if f_ge remaining (f_of_int 0) then
             session' = <["coins_left" := VInts remaining_coins]>
                          (<["equipment" := VEquipment equipment]>
                             (<["coins_left" := VInts remaining_coins]> entered)) ∧
             resp = Redirect "characters.character_name"
                      (purchase_warnings (check_proficiencies cls selected))
           else
             session' = <["coins_left" := VInts remaining_coins]> entered ∧
             resp = RenderEquipment [Msg "You don't have enough funds for this purchase."]
                      gold remaining_coins remaining false (Resolved equipment)
         else
           session' = <["coins_left" := VInts remaining_coins]> entered ∧
           resp = RenderEquipment [] gold (convert_gp_to_coins (f_of_int gold))
                    (f_of_int gold) false NotShown).
Proof.
  intros Hcls Hgold Hpost Htoggle Hupdate Hstep entered base_ac.
  unfold step5_equipment in Hstep.
  rewrite Hcls, (class_starting_gold_truthy _ _ Hgold) in Hstep. cbn [negb] in Hstep.
  rewrite (enter_equipment_step_eq _ _ _ _ Hgold), (from_skills_step_post _ Hpost) in Hstep.
  cbn [mbind option_bind] in Hstep. rewrite Hpost in Hstep.
  rewrite adjusted_mod_entered in Hstep. fold entered base_ac in Hstep.
  destruct (EquipmentForm_init r cls gold) as [form|] eqn:Hinit; [|done].
  cbn [mbind option_bind] in Hstep.
  rewrite (bool_decide_eq_false_2 _ Htoggle), (bool_decide_eq_false_2 _ Hupdate) in Hstep.
  cbn [orb] in Hstep.
  destruct (validate form) as [[verdict form']|] eqn:Hvalidate; [|done].
  cbn [mbind option_bind] in Hstep.
  exists form, verdict, form'. split; [done|]. split; [done|].
  destruct (validate_cases _ _ _ Hvalidate) as (Hdata & _ & _ & Htrue & _).
  pose proof (EquipmentForm_init_eq _ _ _ _ Hinit) as Hform.
  destruct verdict.
  - split; [done|]. intros _.
    destruct (Htrue eq_refl) as (total & _ & Htotal & _ & _ & _ & Hrem & _).
    rewrite (calculate_total_cost_data form' form Hdata), Htotal in Hstep.
    cbn [mbind option_bind] in Hstep.
    rewrite (selected_equipment_data form' form Hdata) in Hstep.
    destruct (selected_equipment form) as [selected|] eqn:Hselected; [|done].
    cbn [mbind option_bind] in Hstep.
    exists total, selected. split; [done|]. split; [done|]. cbv zeta.
    assert (budget form = gold) as Hbudget by (by rewrite Hform).
    rewrite Hbudget in Hrem. split; [done|]. rewrite Hrem in Hstep.
    destruct (bool_decide (action r = Some "preview")); [by simplify_eq|].
    destruct (bool_decide (action r = Some "purchase")); [|by simplify_eq].
    destruct (f_ge (f_sub (f_of_int gold) total) (f_of_int 0)); by simplify_eq.
  - split; [|done]. intros _. by simplify_eq.
Qed.

(** C1, as amended: a POST to the equipment step with action "preview"
    or "purchase" first resets the stored funds to the class's starting
    gold.  A preview never changes the stored equipment, but when the form
    validates it overwrites the stored funds with the coins of budget minus
    total cost, the figures it also returns with the preview flag.  A
    purchase stores the resolved equipment and those funds, and moves on,
    exactly when the form validates and the remaining funds are not
    negative.  A total cost above the budget fails validation: nothing is
    committed, the stored equipment is as before and the stored funds are
    the full starting gold. *)
Theorem C1_equipment_commit (session : session_t) (r : equipment_request)
    (cls : string) (gold : Z) (session' : session_t) (resp : response) :
  get_str session "class" = Some cls →
  class_starting_gold !! cls = Some gold →
  e_method r = POST →
  action r = Some "preview" ∨ action r = Some "purchase" →
  step5_equipment session r = Some (session', resp) →
  let entered : session_t :=
    <["previous_class" := VStr cls]>
      (<["coins_left" := VInts (Currency.coins 0 gold 0 0)]> session) in
  ∃ form verdict form',
    EquipmentForm_init r cls gold = Some form ∧
    validate form = Some (verdict, form') ∧
    (action r = Some "preview" → session' !! "equipment" = session !! "equipment") ∧
    (action r = Some "purchase" →
       ((∃ flashed, resp = Redirect "characters.character_name" flashed) ↔
        verdict = true ∧ f_ge (remaining_funds form') (f_of_int 0) = true)) ∧
    (verdict = false →
       session' = entered ∧ session' !! "equipment" = session !! "equipment") ∧
    (verdict = true →
       ∃ total selected,
         calculate_total_cost form = Some total ∧
         selected_equipment form = Some selected ∧
         let remaining := f_sub (f_of_int gold) total in
         let remaining_coins := convert_gp_to_coins remaining in
         let equipment :=
           annotate selected (10 + adjusted_mod session "dexterity")
             (check_proficiencies cls selected) in
         remaining_funds form' = remaining ∧
         (action r = Some "preview" →
            session' = <["coins_left" := VInts remaining_coins]> entered ∧
            resp = RenderEquipment [] gold remaining_coins remaining true
                     (Resolved equipment)) ∧
         (action r = Some "purchase" → f_ge remaining (f_of_int 0) = true →
            session' = <["coins_left" := VInts remaining_coins]>
                         (<["equipment" := VEquipment equipment]>
                            (<["coins_left" := VInts remaining_coins]> entered)) ∧
            session' !! "equipment" = Some (VEquipment equipment) ∧
            session' !! "coins_left" = Some (VInts remaining_coins) ∧
            resp = Redirect "characters.character_name"
                     (purchase_warnings (check_proficiencies cls selected))) ∧
         (action r = Some "purchase" → f_ge remaining (f_of_int 0) = false →
            session' = <["coins_left" := VInts remaining_coins]> entered ∧
            session' !! "equipment" = session !! "equipment")) ∧
    (∀ total,
       e_wtf_valid r = true → calculate_total_cost form = Some total →
       f_gt total (f_of_int gold) = true →
       verdict = false ∧
       session' = entered ∧
       session' !! "equipment" = session !! "equipment" ∧
       session' !! "coins_left" = Some (VInts (Currency.coins 0 gold 0 0)) ∧
       ∃ remaining_coins remaining shown,
         resp = RenderEquipment [MsgCostExceedsBudget total (f_of_int gold)] gold
                  remaining_coins remaining false shown).
Proof.
  intros Hcls Hgold Hpost Haction Hstep entered.
  assert (action r ≠ Some "toggle_special" ∧ action r ≠ Some "update_spells")
    as [Htoggle Hupdate] by (destruct Haction as [-> | ->]; done).
  destruct (step5_post_outcome _ _ _ _ _ _ Hcls Hgold Hpost Htoggle Hupdate Hstep)
    as (form & verdict & form' & Hinit & Hvalidate & Hfalse & Htrue).
  fold entered in Hfalse, Htrue.
  pose proof (EquipmentForm_init_eq _ _ _ _ Hinit) as Hform.
  assert (data form = r ∧ budget form = gold ∧ validation_errors form = [])
    as (Hdata & Hbudget & Herrors) by (by rewrite Hform).
  destruct (validate_cases _ _ _ Hvalidate) as (_ & _ & _ & Hok & Hbad).
  assert (∀ v : value, (<["coins_left" := v]> entered : session_t) !! "equipment"
                       = session !! "equipment") as Hkeep.
  { intros v. unfold entered. by rewrite !lookup_insert_ne. }
  assert (entered !! "equipment" = session !! "equipment") as Hkeep0.
  { unfold entered. by rewrite !lookup_insert_ne. }
  exists form, verdict, form'. split; [done|]. split; [done|].
  split; [|split; [|split; [|split]]].
  - intros Hpreview. destruct verdict.
    + destruct (Htrue eq_refl) as (total & selected & _ & _ & _ & Hout).
      rewrite (bool_decide_eq_true_2 _ Hpreview) in Hout.
      destruct Hout as [-> _]. apply Hkeep.
    + by destruct (Hfalse eq_refl) as [-> _].
  - intros Hpurchase. destruct verdict.
    + destruct (Htrue eq_refl) as (total & selected & _ & _ & Hrem & Hout).
      cbv zeta in Hrem, Hout. rewrite Hrem.
      rewrite bool_decide_eq_false_2 in Hout by (rewrite Hpurchase; done).
      rewrite (bool_decide_eq_true_2 _ Hpurchase) in Hout.
      destruct (f_ge (f_sub (f_of_int gold) total) (f_of_int 0)).
      * destruct Hout as [_ ->]. split; [done|]. intros _. eauto.
      * destruct Hout as [_ ->]. split; [by intros [? ?]|by intros [_ ?]].
    + destruct (Hfalse eq_refl) as [_ ->]. split; [by intros [? ?]|by intros [? _]].
  - intros Hv. by destruct (Hfalse Hv) as [-> _].
  - intros Hv. destruct (Htrue Hv) as (total & selected & Htotal & Hselected & Hrem & Hout).
    exists total, selected. split; [done|]. split; [done|]. cbv zeta in *.
    split; [done|]. split; [|split].
    + intros Hpreview. by rewrite (bool_decide_eq_true_2 _ Hpreview) in Hout.
    + intros Hpurchase Hge.
      rewrite bool_decide_eq_false_2 in Hout by (rewrite Hpurchase; done).
      rewrite (bool_decide_eq_true_2 _ Hpurchase), Hge in Hout.
      destruct Hout as [-> ->]. split; [done|].
      split; [by rewrite lookup_insert_ne, lookup_insert_eq|].
      split; [by rewrite lookup_insert_eq|done].
    + intros Hpurchase Hge.
      rewrite bool_decide_eq_false_2 in Hout by (rewrite Hpurchase; done).
      rewrite (bool_decide_eq_true_2 _ Hpurchase), Hge in Hout.
      destruct Hout as [-> _]. split; [done|]. apply Hkeep.
  - intros total Hwtf Htotal Hgt.
    assert (verdict = false) as ->.
    { destruct verdict; [|done].
      destruct (Hok eq_refl) as (total' & _ & Htotal' & Hgt' & _).
      rewrite Hbudget in Hgt'. congruence. }
    destruct (Hfalse eq_refl) as [-> ->].
    destruct (Hbad eq_refl) as (e & Herr & Hcase).
    split; [done|]. split; [done|]. split; [done|].
    split; [unfold entered; by rewrite lookup_insert_ne, lookup_insert_eq|].
    do 3 eexists. rewrite Herr, Herrors. simpl. f_equal.
    destruct Hcase as [[Hwtf' _] | (total' & _ & Htotal' & _ & Hcase)].
    { rewrite Hdata in Hwtf'. congruence. }
    rewrite Hbudget in Hcase. assert (total' = total) as -> by congruence.
    destruct Hcase as [[_ ->] | [Hgt' _]]; [done|congruence].
Qed.

(** **** Proficiency *)





End RouteFacts.

(** ** Instances *)

Section Instances.
Import Data ExactFloat Examples.



(** C5, the claim as stated fails: choosing Rogue leaves the stored
    expertise where it was. *)
Lemma C5_rogue_keeps_expertise :
  ∃ session' : gmap string (@value Q),
    step3_class rogue_session (choose_class "Rogue") =
      Some (session', Redirect "characters.step4_skills" []) ∧
    session' !! "expertise" = Some (VStrs ["Stealth"; "Insight"]) ∧
    session' !! "expertise" = rogue_session !! "expertise".
Proof.
  eexists. split; [reflexivity|]. split; reflexivity.
Qed.

Lemma C5_step3_class_effect_witness :
  c_method (choose_class "Wizard") = POST ∧
  c_wtf_valid (choose_class "Wizard") = true ∧
  "Wizard" ∈ ["Fighter"; "Wizard"; "Rogue"; "Cleric"] ∧
  ∃ (session' : gmap string (@value Q)) resp,
    step3_class rogue_session (choose_class "Wizard") = Some (session', resp) ∧
    session' !! "max_hp" = Some (VInt 5) ∧
    session' !! "skill_proficiencies" = None ∧
    session' !! "expertise" = Some (VStrs []).
Proof.
  assert ("Wizard" ∈ ["Fighter"; "Wizard"; "Rogue"; "Cleric"]) as Hin
    by (right; left).
  destruct (C5_step3_class_effect rogue_session (choose_class "Wizard") "Wizard"
              eq_refl eq_refl eq_refl Hin)
    as (session' & resp & hit_die & Hstep & Hdie & _ & _ & _ & Hskills & _ & _ & _
        & Hexp & _ & Hmax & _).
  assert (hit_die = 6) as -> by (vm_compute in Hdie; congruence).
  repeat split; [done|]. exists session', resp.
  split; [exact Hstep|].
  split; [exact Hmax|]. split; [exact Hskills|]. by apply Hexp.
Defined.

(** The Wizard's session as every request to the equipment step first
    leaves it. *)
Local Abbreviation wizard_entered :=
  (<["previous_class" := VStr "Wizard"]>
     (<["coins_left" := VInts (Currency.coins 0 55 0 0)]> wizard_session)).


(** C1, the claim as stated fails: a preview of a dagger (2 gp) changes the
    stored remaining funds, from 55 gp to 5 pp 3 gp. *)
Lemma C1_preview_changes_stored_funds :
  let request := submit "preview" "" "" ["simple_melee:Dagger"] [] in
  let stored : gmap string (@value Q) :=
    <["coins_left" := VInts (Currency.coins 5 3 0 0)]> wizard_entered in
  fst <$> step5_equipment wizard_session request = Some stored ∧
  wizard_session !! "coins_left" = Some (VInts (Currency.coins 0 55 0 0)) ∧
  stored !! "coins_left" = Some (VInts (Currency.coins 5 3 0 0)) ∧
  stored !! "coins_left" ≠ wizard_session !! "coins_left".
Proof.
  intros request stored.
  assert (Currency.coins 5 3 0 0 ≠ Currency.coins 0 55 0 0) as Hne.
  { intros Heq. apply (f_equal (.!! "gp")) in Heq. vm_compute in Heq. discriminate Heq. }
  assert (wizard_session !! "coins_left" = Some (VInts (Currency.coins 0 55 0 0))) as Hold
    by reflexivity.
  assert (stored !! "coins_left" = Some (VInts (Currency.coins 5 3 0 0))) as Hnew
    by apply lookup_insert_eq.
  split; [reflexivity|]. split; [exact Hold|]. split; [exact Hnew|].
  rewrite Hold, Hnew. intros Heq. apply Hne. congruence.
Qed.


Lemma C1_equipment_commit_witness :
  let request := submit "purchase" "" "" ["simple_melee:Dagger"] [] in
  let session' : gmap string (@value Q) :=
    <["coins_left" := VInts (Currency.coins 5 3 0 0)]>
      (<["equipment" := VEquipment dagger_bought]>
         (<["coins_left" := VInts (Currency.coins 5 3 0 0)]> wizard_entered)) in
  get_str wizard_session "class" = Some "Wizard" ∧
  class_starting_gold !! "Wizard" = Some 55 ∧
  e_method request = POST ∧
  action request = Some "purchase" ∧
  step5_equipment wizard_session request =
    Some (session', Redirect "characters.character_name" []) ∧
  session' !! "coins_left" = Some (VInts (Currency.coins 5 3 0 0)).
Proof.
  intros request session'.
  assert (get_str wizard_session "class" = Some "Wizard") as Hcls by reflexivity.
  assert (class_starting_gold !! "Wizard" = Some 55) as Hgold by reflexivity.
  assert (step5_equipment wizard_session request =
            Some (session', Redirect "characters.character_name" [])) as Hstep
    by reflexivity.
  destruct (C1_equipment_commit wizard_session request "Wizard" 55 session' _
              Hcls Hgold eq_refl (or_intror eq_refl) Hstep)
    as (form & verdict & form' & Hinit & Hvalidate & _ & _ & _ & Htrue & _).
  apply EquipmentForm_init_eq in Hinit. subst form.
  assert (verdict = true) as Hverdict.
  { apply (f_equal (fmap fst)) in Hvalidate.
    change (Some true = Some verdict) in Hvalidate. by injection Hvalidate as <-. }
  destruct (Htrue Hverdict) as (total & selected & Htotal & _ & _ & _ & Hcommit & _).
  assert (total = 2%Q) as ->.
  { change (Some 2%Q = Some total) in Htotal. by injection Htotal as <-. }
  destruct (Hcommit eq_refl eq_refl) as (_ & _ & Hcoins & _).
  split; [exact Hcls|]. split; [exact Hgold|]. split; [reflexivity|].
  split; [reflexivity|]. split; [exact Hstep|exact Hcoins].
Defined.


End Instances.
